(** * CloudFormation custom resources: the Boto3 action bridge and the
      resource-type rewriter

    A shallow embedding of [botohook/lambda_function.py] and
    [transform/lambda_function.py], with the properties their specification
    states about them.

    Layout: [Py] holds the fragment of Python the two handlers rely on
    (JSON-shaped values, exceptions, ordered dictionaries, the string
    methods and the [int] / [float] constructors); [FlatDict] the part of the
    [flatdict] package the bridge uses; [Botohook] and [Transform] the two
    Lambda functions.  Theorems follow the definitions. *)

From Stdlib Require Import ZArith List String Ascii Bool Lia Floats.
From Stdlib Require Import DecimalString.
From Stdlib Require DecimalNat DecimalFacts.
Import ListNotations.

Set Implicit Arguments.
Unset Strict Implicit.
Set Warnings "-register-all".

Local Open Scope string_scope.
Local Open Scope Z_scope.

(* ================================================================== *)
(** ** The Python fragment *)
(* ================================================================== *)

Module Py.

(** *** Exceptions and fallible computations *)

Inductive exn_class :=
| TypeError | ValueError | AttributeError | KeyError | OverflowError
| StopIteration | LibraryError.

(** [Builtin c] is an exception raised by the interpreter or by a library
    (its text is not modelled); [Raised c msg] one raised by a [raise]
    statement of the handlers, with the message built there. *)
Inductive exn :=
| Builtin (c : exn_class)
| Raised (c : exn_class) (msg : string).

Inductive result (A : Type) :=
| Ok (a : A)
| Raise (e : exn).

Arguments Ok {A} a.
Arguments Raise {A} e.

Definition bind {A B} (r : result A) (k : A -> result B) : result B :=
  match r with
  | Ok a => k a
  | Raise e => Raise e
  end.

Notation "x <- r ;; k" := (bind r (fun x => k))
  (at level 61, r at next level, right associativity).

(** *** Values

    Strings are sequences of one-byte characters, read as the code points
    U+0000..U+00FF.  [VDate] and [VDateTime] are [datetime.date] and
    [datetime.datetime] (Boto3 responses carry them); a dictionary is the
    list of its items in insertion order. *)

Record date := Date { year : Z; month : Z; day : Z }.
Record datetime := DateTime { on : date; hour : Z; minute : Z; second : Z }.

Inductive value :=
| VNone
| VBool (b : bool)
| VInt (n : Z)
| VFloat (x : float)
| VStr (s : string)
| VDate (d : date)
| VDateTime (t : datetime)
| VList (xs : list value)
| VDict (items : list (string * value)).

Definition dict := list (string * value).

(** *** Ordered dictionaries *)

Section Dict.
Context {V : Type}.

(** [d[k]], as an option. *)
Fixpoint dict_get (k : string) (d : list (string * V)) : option V :=
  match d with
  | [] => None
  | (k', v) :: d' => if String.eqb k k' then Some v else dict_get k d'
  end.

(** [k in d]. *)
Definition dict_mem (k : string) (d : list (string * V)) : bool :=
  match dict_get k d with Some _ => true | None => false end.

(** [d[k] = v]: an existing key keeps its position, a new one goes last. *)
Fixpoint dict_set (k : string) (v : V) (d : list (string * V))
  : list (string * V) :=
  match d with
  | [] => [(k, v)]
  | (k', v') :: d' =>
      if String.eqb k k' then (k, v) :: d' else (k', v') :: dict_set k v d'
  end.

(** [{**d, **more}], also [dict(pairs)] with [d] empty. *)
Definition dict_update (d more : list (string * V)) : list (string * V) :=
  fold_left (fun acc kv => dict_set (fst kv) (snd kv) acc) more d.

Definition keys (d : list (string * V)) : list string := map fst d.
End Dict.

(** *** Strings *)

Definition code (c : ascii) : N := N_of_ascii c.

Definition in_range (lo hi : N) (c : ascii) : bool :=
  ((lo <=? code c) && (code c <=? hi))%N.

(** [str.lower], one character: A-Z, and the Latin-1 capitals U+00C0..U+00DE
    but for the multiplication sign U+00D7. *)
Definition lower_char (c : ascii) : ascii :=
  if in_range 65 90 c || (in_range 192 222 c && negb (code c =? 215)%N)
  then ascii_of_N (code c + 32)
  else c.

Fixpoint lower (s : string) : string :=
  match s with
  | EmptyString => EmptyString
  | String c s' => String (lower_char c) (lower s')
  end.

(** [s.startswith(p)]. *)
Fixpoint startswith (s p : string) : bool :=
  match p, s with
  | EmptyString, _ => true
  | String _ _, EmptyString => false
  | String b p', String a s' => Ascii.eqb a b && startswith s' p'
  end.

Fixpoint char_in (c : ascii) (chars : string) : bool :=
  match chars with
  | EmptyString => false
  | String d chars' => Ascii.eqb c d || char_in c chars'
  end.

(** [s.lstrip(chars)]: drops the leading characters of [s] that occur in
    [chars], a set of characters, not a prefix. *)
Fixpoint lstrip (s chars : string) : string :=
  match s with
  | EmptyString => EmptyString
  | String c s' => if char_in c chars then lstrip s' chars else s
  end.

(** [sub in s] on strings. *)
Fixpoint str_contains (s sub : string) : bool :=
  startswith s sub ||
  match s with
  | EmptyString => false
  | String _ s' => str_contains s' sub
  end.

(** [s.split(sep)] for a one-character separator: never empty. *)
Fixpoint split (sep : ascii) (s : string) : list string :=
  match s with
  | EmptyString => [EmptyString]
  | String c s' =>
      if Ascii.eqb c sep then EmptyString :: split sep s'
      else match split sep s' with
           | [] => [String c EmptyString]
           | w :: ws => String c w :: ws
           end
  end.

Fixpoint rev_string (acc s : string) : string :=
  match s with
  | EmptyString => acc
  | String c s' => rev_string (String c acc) s'
  end.

(** The characters [int] and [float] skip around a literal. *)
Definition is_space (c : ascii) : bool :=
  in_range 9 13 c || in_range 28 32 c || (code c =? 133)%N || (code c =? 160)%N.

Fixpoint lstrip_space (s : string) : string :=
  match s with
  | EmptyString => EmptyString
  | String c s' => if is_space c then lstrip_space s' else s
  end.

Definition strip_space (s : string) : string :=
  lstrip_space (rev_string "" (lstrip_space (rev_string "" s))).

Definition is_digit (c : ascii) : bool := in_range 48 57 c.

Definition digit_value (c : ascii) : Z := Z.of_N (code c) - 48.

(** *** [int(...)] *)

(** Digits with single underscores between them; [prev] tells whether the
    previous character was a digit.  Returns the number and how many digits
    it has. *)
Fixpoint scan_digits (s : string) (prev : bool) (acc : Z) (count : nat)
  : option (Z * nat) :=
  match s with
  | EmptyString => if prev then Some (acc, count) else None
  | String c s' =>
      if is_digit c
      then scan_digits s' true (10 * acc + digit_value c) (S count)
      else if Ascii.eqb c "_" && prev then scan_digits s' false acc count
      else None
  end.

(** [sys.int_info.default_max_str_digits]. *)
Definition max_str_digits : nat := 4300.

Definition split_sign (s : string) : bool * string :=
  match s with
  | String "-" s' => (true, s')
  | String "+" s' => (false, s')
  | _ => (false, s)
  end.

(** [int(s)] for a string, base 10. *)
Definition int_of_string (s : string) : result Z :=
  let (neg, body) := split_sign (strip_space s) in
  match scan_digits body false 0 0 with
  | Some (n, count) =>
      if (max_str_digits <? count)%nat then Raise (Builtin ValueError)
      else Ok (if neg then - n else n)
  | None => Raise (Builtin ValueError)
  end.

(** *** [float(...)] *)

(** Underscores of a numeric literal: each needs a digit before and after;
    they are removed before the literal is read. *)
Fixpoint drop_underscores (s : string) (prev : bool) : option string :=
  match s with
  | EmptyString => Some EmptyString
  | String c s' =>
      if Ascii.eqb c "_"
      then match s' with
           | String d _ =>
               if prev && is_digit d then drop_underscores s' false else None
           | EmptyString => None
           end
      else option_map (String c) (drop_underscores s' (is_digit c))
  end.

(** The longest run of digits at the head of [s]: the digits read as a
    number, how many there are, and the rest. *)
Fixpoint take_digits (s : string) (acc : Z) (count : nat)
  : Z * nat * string :=
  match s with
  | String c s' =>
      if is_digit c then take_digits s' (10 * acc + digit_value c) (S count)
      else (acc, count, s)
  | EmptyString => (acc, count, s)
  end.

(** The double nearest to [p / q] ([q > 0]), ties to even: the quotient is
    taken with enough extra bits, and one sticky bit for the remainder. *)
Definition float_of_ratio (neg : bool) (p q : Z) : float :=
  let s := 1100 + Z.log2 q in
  let n := (p * 2 ^ s) / q in
  let sticky := if (p * 2 ^ s) mod q =? 0 then 0 else 1 in
  let m := 2 * n + sticky in
  SF2Prim (binary_normalize prec emax (if neg then - m else m) (- s - 1) neg).

(** A decimal literal without its sign: [digits [. digits] [e [sign] digits]]
    with a digit before or after the point. *)
Definition decimal_of_string (neg : bool) (s : string) : option float :=
  let '(ip, ni, rest) := take_digits s 0 0 in
  let '(m, nf, rest) :=
    match rest with
    | String "." rest' =>
        let '(m, nf, rest'') := take_digits rest' ip 0 in (m, nf, rest'')
    | _ => (ip, 0%nat, rest)
    end in
  if (ni + nf =? 0)%nat then None
  else
    let exponent :=
      match rest with
      | EmptyString => Some 0
      | String c rest' =>
          if Ascii.eqb c "e" || Ascii.eqb c "E"
          then let (eneg, ds) := split_sign rest' in
               match take_digits ds 0 0 with
               | (e, S _, EmptyString) => Some (if eneg then - e else e)
               | _ => None
               end
          else None
      end in
    match exponent with
    | Some e =>
        let e10 := e - Z.of_nat nf in
        Some (if 0 <=? e10 then float_of_ratio neg (m * 10 ^ e10) 1
              else float_of_ratio neg m (10 ^ (- e10)))
    | None => None
    end.

(** [float(s)] for a string. *)
Definition float_of_string (s : string) : result float :=
  match drop_underscores (strip_space s) false with
  | None => Raise (Builtin ValueError)
  | Some t =>
      let (neg, body) := split_sign t in
      let word := lower body in
      if String.eqb word "inf" || String.eqb word "infinity"
      then Ok (if neg then neg_infinity else infinity)
      else if String.eqb word "nan" then Ok nan
      else match decimal_of_string neg body with
           | Some x => Ok x
           | None => Raise (Builtin ValueError)
           end
  end.

(** [float(n)] for an integer: [OverflowError] when it rounds out of
    range. *)
Definition float_of_int (n : Z) : result float :=
  let x := SF2Prim (binary_normalize prec emax n 0 false) in
  if is_infinity x then Raise (Builtin OverflowError) else Ok x.

(** [int(x)] for a float: towards zero. *)
Definition int_of_float (x : float) : result Z :=
  match Prim2SF x with
  | S754_zero _ => Ok 0
  | S754_infinity _ => Raise (Builtin OverflowError)
  | S754_nan => Raise (Builtin ValueError)
  | S754_finite neg m e =>
      let n := if 0 <=? e then Z.pos m * 2 ^ e else Z.pos m / 2 ^ (- e) in
      Ok (if neg then - n else n)
  end.

(** [int(v)] and [float(v)] on any value. *)
Definition py_int (v : value) : result Z :=
  match v with
  | VStr s => int_of_string s
  | VInt n => Ok n
  | VBool b => Ok (if b then 1 else 0)
  | VFloat x => int_of_float x
  | _ => Raise (Builtin TypeError)
  end.

Definition py_float (v : value) : result float :=
  match v with
  | VStr s => float_of_string s
  | VInt n => float_of_int n
  | VBool b => Ok (if b then one else zero)
  | VFloat x => Ok x
  | _ => Raise (Builtin TypeError)
  end.

(** *** Truth value, subscripts, [dict.get], [str(n)] *)

Definition truthy (v : value) : bool :=
  match v with
  | VNone => false
  | VBool b => b
  | VInt n => negb (n =? 0)
  | VFloat x => negb (is_zero x)
  | VStr s => negb (String.eqb s "")
  | VDate _ | VDateTime _ => true
  | VList xs => match xs with [] => false | _ => true end
  | VDict items => match items with [] => false | _ => true end
  end.

(** [v[k]] for a string [k]. *)
Definition getitem (v : value) (k : string) : result value :=
  match v with
  | VDict items =>
      match dict_get k items with
      | Some x => Ok x
      | None => Raise (Builtin KeyError)
      end
  | _ => Raise (Builtin TypeError)
  end.

(** [v.get(k, default)], [None] standing for an omitted default. *)
Definition get (v : value) (k : string) (default : value) : result value :=
  match v with
  | VDict items =>
      Ok (match dict_get k items with Some x => x | None => default end)
  | _ => Raise (Builtin AttributeError)
  end.

(** [str(n)] for a natural number. *)
Definition str_of_nat (n : nat) : string :=
  NilZero.string_of_uint (Nat.to_uint n).

End Py.

(* ================================================================== *)
(** ** [flatdict.FlatterDict] *)
(* ================================================================== *)

(** The part of [flatdict] 4.0 the bridge uses: building a [FlatterDict]
    from a response, and reading it back through [dict(...)], that is
    [keys()] and [__getitem__]. *)

Module FlatDict.
Import Py.

(** What a [FlatterDict] was built from ([original_type]). *)
Inductive original_type := OfDict | OfList.

(** A stored value: a scalar as it came, or a nested [FlatterDict], which is
    its [original_type] and its [_values]. *)
Inductive node :=
| Scalar (v : value)
| Nested (t : original_type) (values : list (string * node)).

Definition delimiter : ascii := ".".

(** [self.__setitem__(key, value)] with [value] already coerced, on
    [self._values].  [parts] is [key.split(delimiter)]: the source splits
    one segment off at a time, [pk, ck = key.split(delimiter, 1)], so [pk]
    is the head of [parts] and [ck] the rest. *)
Fixpoint setitem (parts : list string) (value : node)
    (values : list (string * node)) : result (list (string * node)) :=
  match parts with
  | [] => Ok values
  | [key] => Ok (dict_set key value values)
  | pk :: ((k :: cck) as ck) =>
      match dict_get pk values with
      | None =>
          (* self._values[pk] = self.__class__({ck: value}) *)
          fresh <- setitem ck value [] ;;
          Ok (dict_set pk (Nested OfDict fresh) values)
      | Some (Nested OfList elements) =>
          (* k, cck = ck.split(delimiter, 1); int(k);
             self._values[pk][k][cck] = value *)
          match cck with
          | [] => Raise (Builtin TypeError)
          | _ :: _ =>
              match int_of_string k with
              | Raise _ => Raise (Builtin TypeError)
              | Ok _ =>
                  match dict_get k elements with
                  | None => Raise (Builtin KeyError)
                  | Some (Scalar _) => Raise (Builtin TypeError)
                  | Some (Nested t inner) =>
                      inner' <- setitem cck value inner ;;
                      Ok (dict_set pk
                            (Nested OfList
                               (dict_set k (Nested t inner') elements))
                            values)
                  end
              end
          end
      | Some (Scalar _) => Raise (Builtin TypeError)
      | Some (Nested OfDict inner) =>
          (* self._values[pk][ck] = value *)
          inner' <- setitem ck value inner ;;
          Ok (dict_set pk (Nested OfDict inner') values)
      end
  end.

(** [{str(i): v for i, v in enumerate(xs)}], counting from [i]. *)
Fixpoint enumerate (i : nat) (xs : list value) : list (string * value) :=
  match xs with
  | [] => []
  | x :: xs' => (str_of_nat i, x) :: enumerate (S i) xs'
  end.

(** The coercion at the head of [__setitem__]: a list or a dictionary
    becomes a [FlatterDict], whose [__init__] stores the items one by one
    ([update]). *)
Fixpoint coerce (v : value) : result node :=
  let update :=
    fix update (items : list (string * value))
        (values : list (string * node)) : result (list (string * node)) :=
      match items with
      | [] => Ok values
      | (k, x) :: items' =>
          n <- coerce x ;;
          values' <- setitem (split delimiter k) n values ;;
          update items' values'
      end in
  let update_list :=
    fix update_list (i : nat) (xs : list value)
        (values : list (string * node)) : result (list (string * node)) :=
      match xs with
      | [] => Ok values
      | x :: xs' =>
          n <- coerce x ;;
          values' <- setitem (split delimiter (str_of_nat i)) n values ;;
          update_list (S i) xs' values'
      end in
  match v with
  | VDict items => values <- update items [] ;; Ok (Nested OfDict values)
  | VList xs => values <- update_list 0%nat xs [] ;; Ok (Nested OfList values)
  | _ => Ok (Scalar v)
  end.

(** [FlatterDict(items, delimiter='.')] for a dictionary, as its
    [_values]. *)
Definition FlatterDict (items : dict) : result (list (string * node)) :=
  n <- coerce (VDict items) ;;
  Ok (match n with
      | Nested _ values => values
      | Scalar _ => []
      end).

(** [keys()]: the paths to the stored scalars and to the empty nested
    dictionaries.  [item_keys key n] are the keys one stored item gives. *)
Fixpoint item_keys (key : string) (n : node) : list string :=
  match n with
  | Scalar _ => [key]
  | Nested _ inner =>
      let nested :=
        (fix keys_of (values : list (string * node)) : list string :=
           match values with
           | [] => []
           | (k, n') :: values' => (item_keys k n' ++ keys_of values')%list
           end) inner in
      match nested with
      | [] => [key]
      | _ :: _ => map (fun k => key ++ String delimiter k)%string nested
      end
  end.

Fixpoint flat_keys (values : list (string * node)) : list string :=
  match values with
  | [] => []
  | (k, n) :: values' => (item_keys k n ++ flat_keys values')%list
  end.

(** [__getitem__]: walks [key.split(delimiter)] down the nested values. *)
Fixpoint walk (parts : list string) (n : node) : result node :=
  match parts with
  | [] => Ok n
  | part :: parts' =>
      match n with
      | Scalar _ => Raise (Builtin TypeError)
      | Nested _ values =>
          match dict_get part values with
          | Some n' => walk parts' n'
          | None => Raise (Builtin KeyError)
          end
      end
  end.

Definition flat_getitem (values : list (string * node)) (key : string)
  : result node :=
  walk (split delimiter key) (Nested OfDict values).

(** [dict(FlatterDict(v, delimiter='.'))]. *)
Fixpoint read (values : list (string * node)) (ks : list string)
    (acc : list (string * node)) : result (list (string * node)) :=
  match ks with
  | [] => Ok acc
  | k :: ks' => n <- flat_getitem values k ;; read values ks' (dict_set k n acc)
  end.

Definition flatten (items : dict) : result (list (string * node)) :=
  values <- FlatterDict items ;;
  read values (flat_keys values) [].

End FlatDict.

(* ================================================================== *)
(** ** [botohook/lambda_function.py]: the action bridge *)
(* ================================================================== *)

Module Botohook.
Import Py FlatDict.

(** *** Parameter typing *)

(** [v.lower() in ('true', '1')]. *)
Definition lower_in_true (v : value) : result value :=
  match v with
  | VStr s =>
      Ok (VBool (existsb (String.eqb (lower s)) ["true"; "1"]))
  | _ => Raise (Builtin AttributeError)
  end.

Definition TYPE_MAPPERS : list (string * (value -> result value)) :=
  [ ("Type::Int",
     fun v => x <- getitem v "Type::Int" ;; n <- py_int x ;; Ok (VInt n));
    ("Type::Float",
     fun v => x <- getitem v "Type::Float" ;; y <- py_float x ;; Ok (VFloat y));
    ("Type::Bool",
     fun v => x <- getitem v "Type::Bool" ;; lower_in_true x) ].

(** [any(k in parameter for k in TYPE_MAPPERS)]. *)
Definition any_type_key (parameter : dict) : bool :=
  existsb (fun k => dict_mem k parameter) (keys TYPE_MAPPERS).

(** [TYPE_MAPPERS[next(k for k in parameter if k in TYPE_MAPPERS)](parameter)]. *)
Definition apply_type_mapper (parameter : dict) : result value :=
  match find (fun k => dict_mem k TYPE_MAPPERS) (keys parameter) with
  | None => Raise (Builtin StopIteration)
  | Some k =>
      match dict_get k TYPE_MAPPERS with
      | Some mapper => mapper (VDict parameter)
      | None => Raise (Builtin KeyError)
      end
  end.

Fixpoint handle_param_typing (parameter : value) : result value :=
  match parameter with
  | VDict items =>
      if any_type_key items then apply_type_mapper items
      else
        items' <-
          (fix each (kvs : list (string * value)) : result dict :=
             match kvs with
             | [] => Ok []
             | (k, v) :: kvs' =>
                 v' <- handle_param_typing v ;;
                 rest <- each kvs' ;;
                 Ok ((k, v') :: rest)
             end) items ;;
        Ok (VDict items')
  | VList xs =>
      xs' <-
        (fix each (vs : list value) : result (list value) :=
           match vs with
           | [] => Ok []
           | v :: vs' =>
               v' <- handle_param_typing v ;;
               rest <- each vs' ;;
               Ok (v' :: rest)
           end) xs ;;
      Ok (VList xs')
  | _ => Ok parameter
  end.

(** *** The collaborators *)

(** A custom resource event: the request type, the resource properties and
    what the transport side reads. *)
Record event := Event {
  RequestType : string;
  ResourceProperties : dict;
  StackId : string;
  RequestId : string;
  LogicalResourceId : string
}.

(** What [getattr(client, name)] finds. *)
Inductive attribute :=
| Missing
| Field
| Method (call : dict -> result value).

Definition client := string -> attribute.

(** Boto3, JMESPath, [json.dumps] and crhelper's [generate_physical_id], as
    the handler sees them. *)
Record env := Env {
  boto3_client : string -> result client;
  search : value -> value -> result value;
  json_dumps : value -> result string;
  generate_physical_id : event -> string
}.

(** *** The handler's effects

    The handler writes [cfn_resource.Data] and calls one remote method; an
    exception leaves what was written before it.  [calls] records the
    remote calls made: service, method and keyword arguments. *)

Record state := State {
  Data : list (string * node);
  calls : list (string * string * dict)
}.

Definition M (A : Type) : Type := state -> result A * state.

Definition ret {A} (a : A) : M A := fun st => (Ok a, st).

Definition raise {A} (e : exn) : M A := fun st => (Raise e, st).

Definition mbind {A B} (m : M A) (k : A -> M B) : M B :=
  fun st =>
    match m st with
    | (Ok a, st') => k a st'
    | (Raise e, st') => (Raise e, st')
    end.

Definition lift {A} (r : result A) : M A := fun st => (r, st).

Definition set_Data (d : list (string * node)) : M unit :=
  fun st => (Ok tt, State d (calls st)).

Definition set_Data_item (k : string) (v : value) : M unit :=
  fun st => (Ok tt, State (dict_set k (Scalar v) (Data st)) (calls st)).

Definition invoke (service method : string) (call : dict -> result value)
    (kwargs : dict) : M value :=
  fun st => (call kwargs, State (Data st) (calls st ++ [(service, method, kwargs)])).

Notation "x <~ m ;; k" := (mbind m (fun x => k))
  (at level 61, m at next level, right associativity).
Notation "m ;;; k" := (mbind m (fun _ => k))
  (at level 61, right associativity).

(** *** [strftime('%Y-%m-%dT%H:%M:%S')] *)

Fixpoint zeros (n : nat) : string :=
  match n with
  | O => ""
  | S n' => String "0" (zeros n')
  end.

Definition pad (width : nat) (n : Z) : string :=
  let s := str_of_nat (Z.to_nat n) in
  zeros (width - String.length s) ++ s.

Definition strftime (d : date) (h m s : Z) : string :=
  pad 4 (year d) ++ "-" ++ pad 2 (month d) ++ "-" ++ pad 2 (day d) ++ "T" ++
  pad 2 h ++ ":" ++ pad 2 m ++ ":" ++ pad 2 s.

(** [v.strftime(...) if isinstance(v, (datetime, date)) else v]. *)
Definition escape (n : node) : node :=
  match n with
  | Scalar (VDate d) => Scalar (VStr (strftime d 0 0 0))
  | Scalar (VDateTime t) =>
      Scalar (VStr (strftime (on t) (hour t) (minute t) (second t)))
  | _ => n
  end.

(** The value of [cfn_resource.Data] for a response:
    [FlatterDict(boto_res if isinstance(boto_res, dict) else
    {'Result': boto_res}, delimiter='.')], read as a dictionary, dates
    escaped. *)
Definition response_data (boto_res : value) : result (list (string * node)) :=
  flat <- flatten (match boto_res with
                   | VDict items => items
                   | _ => [("Result", boto_res)]
                   end) ;;
  Ok (map (fun kv => (fst kv, escape (snd kv))) flat).

(** *** The request handler *)

(** The hook to run, [None] when there is none. *)
Definition request_type (ev : event) : option string :=
  if dict_mem (RequestType ev) (ResourceProperties ev)
  then Some (RequestType ev)
  else if String.eqb (RequestType ev) "Update"
          && dict_mem "Create" (ResourceProperties ev)
  then Some "Create"
  else None.

Definition no_method_message (client_name method_name : string) : string :=
  "Boto client method '" ++ client_name ++ "." ++ method_name ++
  "' does not exist.".

Definition no_result_message (rt : string) : string :=
  "The resource was successfully " ++ lower rt ++
  "d, but the JMESPath expression did not return any" ++
  "result. Said resource will not be roll-backed and must be deleted manually.".

(** [**v]: the keyword arguments of a call. *)
Definition kwargs (v : value) : result dict :=
  match v with
  | VDict items => Ok items
  | _ => Raise (Builtin TypeError)
  end.

Definition handle_custom_resource_request (w : env) (ev : event)
  : M (option string) :=
  match request_type ev with
  | None =>
      if String.eqb (RequestType ev) "Update"
      then ret (Some (generate_physical_id w ev))
      else ret None
  | Some rt =>
      hook_properties <~ lift (getitem (VDict (ResourceProperties ev)) rt) ;;
      client_name <~ lift (getitem hook_properties "Client") ;;
      method_name <~ lift (getitem hook_properties "Method") ;;
      boto_request_params <~
        lift (get hook_properties "Parameters" (VDict [])) ;;
      service <~ lift (match client_name with
                       | VStr s => Ok s
                       | _ => Raise (Builtin LibraryError)
                       end) ;;
      cl <~ lift (boto3_client w service) ;;
      name <~ lift (match method_name with
                    | VStr s => Ok s
                    | _ => Raise (Builtin TypeError)
                    end) ;;
      match cl name with
      | Missing | Field =>
          raise (Raised ValueError (no_method_message service name))
      | Method call =>
          params <~ lift (handle_param_typing boto_request_params) ;;
          args <~ lift (kwargs params) ;;
          boto_res <~ invoke service name call args ;;
          data <~ lift (response_data boto_res) ;;
          set_Data data ;;;
          if existsb (String.eqb rt) ["Create"; "Update"]
          then
            physical_id_expr <~
              lift (get hook_properties "PhysicalResourceId" VNone) ;;
            if truthy physical_id_expr
            then
              physical_id <~ lift (search w physical_id_expr boto_res) ;;
              if negb (truthy physical_id)
              then raise (Raised ValueError (no_result_message rt))
              else
                ref <~ lift (match physical_id with
                             | VStr s => Ok s
                             | _ => json_dumps w physical_id
                             end) ;;
                set_Data_item "Ref" (VStr ref) ;;;
                ret (Some ref)
            else ret None
          else ret None
      end
  end.

End Botohook.

(* ================================================================== *)
(** ** [transform/lambda_function.py]: the resource-type rewriter *)
(* ================================================================== *)

Module Transform.
Import Py.

Definition CUSTOM_RESOURCE : string := "AWS::CloudFormation::CustomResource".

(** [k in v]. *)
Definition contains (v : value) (k : string) : result bool :=
  match v with
  | VDict items => Ok (dict_mem k items)
  | VList xs =>
      Ok (existsb (fun x => match x with
                            | VStr s => String.eqb s k
                            | _ => false
                            end) xs)
  | VStr s => Ok (str_contains s k)
  | _ => Raise (Builtin TypeError)
  end.

(** [v.startswith(prefix)] and [v.lstrip(prefix)]: string methods. *)
Definition py_startswith (v : value) (prefix : string) : result bool :=
  match v with
  | VStr s => Ok (startswith s prefix)
  | _ => Raise (Builtin AttributeError)
  end.

Definition py_lstrip (v : value) (chars : string) : result string :=
  match v with
  | VStr s => Ok (lstrip s chars)
  | _ => Raise (Builtin AttributeError)
  end.

Section Rewriter.
(** [os.environ['RESOURCE_TYPE_PREFIX']] and
    [json.loads(os.environ['RESOURCE_TYPE_SERVICE_TOKENS'])]. *)
Variable RESOURCE_TYPE_PREFIX : string.
Variable RESOURCE_TYPE_SERVICE_TOKENS : dict.

(** The condition of the comprehension. *)
Definition is_custom (resource_def : value) : result bool :=
  has_type <- contains resource_def "Type" ;;
  if negb has_type then Ok false
  else
    ty <- getitem resource_def "Type" ;;
    starts <- py_startswith ty RESOURCE_TYPE_PREFIX ;;
    if negb starts then Ok false
    else
      ty' <- getitem resource_def "Type" ;;
      suffix <- py_lstrip ty' RESOURCE_TYPE_PREFIX ;;
      Ok (dict_mem suffix RESOURCE_TYPE_SERVICE_TOKENS).

(** [**v] inside a dictionary display. *)
Definition unpack (v : value) : result dict :=
  match v with
  | VDict items => Ok items
  | _ => Raise (Builtin TypeError)
  end.

(** The replacement built for a custom resource. *)
Definition custom_resource (resource_def : value) : result value :=
  fields <- unpack resource_def ;;
  ty <- getitem resource_def "Type" ;;
  suffix <- py_lstrip ty RESOURCE_TYPE_PREFIX ;;
  token <- getitem (VDict RESOURCE_TYPE_SERVICE_TOKENS) suffix ;;
  properties <- get resource_def "Properties" VNone ;;
  more <- unpack properties ;;
  Ok (VDict
        (dict_set "Properties"
           (VDict (dict_update [("ServiceToken", token)] more))
           (dict_set "Type" (VStr CUSTOM_RESOURCE) fields))).

Definition replace_resource (resource_def : value) : result value :=
  custom <- is_custom resource_def ;;
  if custom then custom_resource resource_def else Ok resource_def.

Fixpoint replace_fragment_resources (resources : dict) : result dict :=
  match resources with
  | [] => Ok []
  | (resource_id, resource_def) :: resources' =>
      def' <- replace_resource resource_def ;;
      rest <- replace_fragment_resources resources' ;;
      Ok ((resource_id, def') :: rest)
  end.
End Rewriter.

Section Handler.
(** The configuration, and [str(err)] for the exception caught. *)
Variable RESOURCE_TYPE_PREFIX : string.
Variable RESOURCE_TYPE_SERVICE_TOKENS : dict.
Variable describe : exn -> string.

(** [resources.items()]. *)
Definition dict_items (resources : value) : result dict :=
  match resources with
  | VDict kvs => Ok kvs
  | _ => Raise (Builtin AttributeError)
  end.

(** The body of the [try]. *)
Definition transformed (event : value) : result value :=
  requestId <- getitem event "requestId" ;;
  fragment <- getitem event "fragment" ;;
  fields <- unpack fragment ;;
  fragment' <- getitem event "fragment" ;;
  resources <- getitem fragment' "Resources" ;;
  entries <- dict_items resources ;;
  resources' <- replace_fragment_resources RESOURCE_TYPE_PREFIX
                  RESOURCE_TYPE_SERVICE_TOKENS entries ;;
  Ok (VDict [("requestId", requestId);
             ("status", VStr "success");
             ("fragment", VDict (dict_set "Resources" (VDict resources') fields))]).

(** The body of the [except]. *)
Definition failed (event : value) (err : exn) : result value :=
  requestId <- getitem event "requestId" ;;
  fragment <- getitem event "fragment" ;;
  Ok (VDict [("requestId", requestId);
             ("status", VStr "failure");
             ("fragment", fragment);
             ("errorMessage", VStr (describe err))]).

Definition lambda_handler (event : value) : result value :=
  match transformed event with
  | Ok response => Ok response
  | Raise err => failed event err
  end.
End Handler.

End Transform.

(* ================================================================== *)
(** ** Scenarios *)
(* ================================================================== *)

(** A stand-in for the collaborators, for the concrete scenarios: an [s3]
    service whose [create_bucket] answers with the bucket's location, and a
    path query that only knows plain identifiers. *)
Module Scenario.
Import Py Botohook.

Definition create_bucket (kwargs : dict) : result value :=
  match dict_get "Bucket" kwargs with
  | Some (VStr b) => Ok (VDict [("Location", VStr ("/" ++ b))])
  | _ => Raise (Builtin LibraryError)
  end.

Definition s3 : client :=
  fun name =>
    if String.eqb name "create_bucket" then Method create_bucket
    else if String.eqb name "meta" then Field
    else Missing.

Definition identifier (expression data : value) : result value :=
  match expression, data with
  | VStr k, VDict items =>
      Ok (match dict_get k items with Some v => v | None => VNone end)
  | VStr _, _ => Ok VNone
  | _, _ => Raise (Builtin LibraryError)
  end.

Definition world : env :=
  {| boto3_client := fun service =>
       if String.eqb service "s3" then Ok s3 else Raise (Builtin LibraryError);
     search := identifier;
     json_dumps := fun _ => Raise (Builtin TypeError);
     generate_physical_id := fun ev =>
       StackId ev ++ "_" ++ LogicalResourceId ev ++ "_ABCDEFGH" |}.

Definition hook (path : list (string * value)) : value :=
  VDict ([("Client", VStr "s3"); ("Method", VStr "create_bucket");
          ("Parameters", VDict [("Bucket", VStr "x")])] ++ path).

Definition request (kind : string) (properties : dict) : event :=
  {| RequestType := kind; ResourceProperties := properties;
     StackId := "stack"; RequestId := "request";
     LogicalResourceId := "Bucket" |}.

Definition fresh : state := {| Data := []; calls := [] |}.

End Scenario.

(* ================================================================== *)
(** ** The vocabulary of the properties *)
(* ================================================================== *)

Import Py FlatDict Botohook Transform.

Local Open Scope list_scope.

(** *** Induction on values *)

Section ValueInduction.
Variable P : value -> Prop.
Hypothesis HNone : P VNone.
Hypothesis HBool : forall b, P (VBool b).
Hypothesis HInt : forall n, P (VInt n).
Hypothesis HFloat : forall x, P (VFloat x).
Hypothesis HStr : forall s, P (VStr s).
Hypothesis HDate : forall d, P (VDate d).
Hypothesis HDateTime : forall t, P (VDateTime t).
Hypothesis HList : forall xs, Forall P xs -> P (VList xs).
Hypothesis HDict :
  forall items, Forall (fun kv => P (snd kv)) items -> P (VDict items).

Fixpoint value_induction (v : value) : P v :=
  match v with
  | VNone => HNone
  | VBool b => HBool b
  | VInt n => HInt n
  | VFloat x => HFloat x
  | VStr s => HStr s
  | VDate d => HDate d
  | VDateTime t => HDateTime t
  | VList xs =>
      HList ((fix all (l : list value) : Forall P l :=
                match l with
                | [] => Forall_nil P
                | x :: l' => Forall_cons x (value_induction x) (all l')
                end) xs)
  | VDict items =>
      HDict ((fix all (l : list (string * value))
                : Forall (fun kv => P (snd kv)) l :=
                match l with
                | [] => Forall_nil _
                | kv :: l' =>
                    Forall_cons kv (value_induction (snd kv)) (all l')
                end) items)
  end.
End ValueInduction.

(** *** Parameter typing *)

(** The two comprehensions of [handle_param_typing], by name. *)
Fixpoint typed_items (kvs : list (string * value)) : result dict :=
  match kvs with
  | [] => Ok []
  | (k, v) :: kvs' =>
      v' <- handle_param_typing v ;;
      rest <- typed_items kvs' ;;
      Ok ((k, v') :: rest)
  end.

Fixpoint typed_list (vs : list value) : result (list value) :=
  match vs with
  | [] => Ok []
  | v :: vs' =>
      v' <- handle_param_typing v ;;
      rest <- typed_list vs' ;;
      Ok (v' :: rest)
  end.


(** The tag an envelope is read by: its first key that is a type tag. *)
Definition envelope_tag (items : dict) : option string :=
  find (fun k => dict_mem k TYPE_MAPPERS) (keys items).




(** No dictionary inside [v] holds a type tag. *)
Fixpoint envelope_free (v : value) : bool :=
  match v with
  | VDict items =>
      negb (any_type_key items) &&
      (fix all (kvs : list (string * value)) : bool :=
         match kvs with
         | [] => true
         | (_, x) :: kvs' => envelope_free x && all kvs'
         end) items
  | VList xs =>
      (fix all (vs : list value) : bool :=
         match vs with
         | [] => true
         | x :: vs' => envelope_free x && all vs'
         end) xs
  | _ => true
  end.

(** Neither a list nor a dictionary. *)
Definition scalar (v : value) : bool :=
  match v with
  | VList _ | VDict _ => false
  | _ => true
  end.

(** *** Identity resolution *)

(** What the failure has to tell the operator. *)
Definition manual_remediation : string :=
  "Said resource will not be roll-backed and must be deleted manually.".

(** *** The rewriter *)

(** [s] without its first [length p] characters: what is left of [s] when
    the prefix [p] is removed as a literal prefix. *)
Fixpoint without_prefix (s p : string) : string :=
  match p, s with
  | String _ p', String _ s' => without_prefix s' p'
  | _, _ => s
  end.


(** The properties of a rewritten entry: the token, or the entry's own
    [ServiceToken] when it has one, and then the entry's other
    properties. *)
Definition delegate_properties (token : value) (properties : dict) : dict :=
  ("ServiceToken",
   match dict_get "ServiceToken" properties with
   | Some v => v
   | None => token
   end)
    :: filter (fun kv => negb (String.eqb (fst kv) "ServiceToken")) properties.

(** *** The flattener, as the specification describes it *)

(** The attributes [entries], moved under [key] and a dot. *)
Definition under (key : string) (entries : list (string * node))
  : list (string * node) :=
  map (fun entry => ((key ++ String delimiter (fst entry))%string, snd entry))
    entries.

(** The attributes a value stored under [key] gives: itself when it is a
    scalar or an empty container, and otherwise the attributes of its
    items, under [key] and a dot; the items of a list are named by their
    index. *)
Fixpoint dotted_item (key : string) (v : value) : list (string * node) :=
  match v with
  | VDict [] => [(key, Nested OfDict [])]
  | VDict items =>
      under key
        ((fix each (kvs : list (string * value)) : list (string * node) :=
            match kvs with
            | [] => []
            | (k, x) :: kvs' => dotted_item k x ++ each kvs'
            end) items)
  | VList [] => [(key, Nested OfList [])]
  | VList xs =>
      under key
        ((fix each (i : nat) (vs : list value) : list (string * node) :=
            match vs with
            | [] => []
            | x :: vs' => dotted_item (str_of_nat i) x ++ each (S i) vs'
            end) 0%nat xs)
  | _ => [(key, Scalar v)]
  end.

(** The attributes of a dictionary: those of its items, in order. *)
Fixpoint dotted (items : dict) : list (string * node) :=
  match items with
  | [] => []
  | (k, x) :: items' => dotted_item k x ++ dotted items'
  end.

(** No key occurs twice. *)
Fixpoint distinct (ks : list string) : bool :=
  match ks with
  | [] => true
  | k :: ks' => negb (existsb (String.eqb k) ks') && distinct ks'
  end.

(** A response as the services give them: the keys of a dictionary are
    distinct and hold no dot. *)
Fixpoint plain (v : value) : bool :=
  match v with
  | VDict items =>
      distinct (keys items) &&
      (fix all (kvs : list (string * value)) : bool :=
         match kvs with
         | [] => true
         | (k, x) :: kvs' => negb (char_in delimiter k) && plain x && all kvs'
         end) items
  | VList xs =>
      (fix all (vs : list value) : bool :=
         match vs with
         | [] => true
         | x :: vs' => plain x && all vs'
         end) xs
  | _ => true
  end.

(** The stored form of a plain value. *)
Fixpoint stored (v : value) : node :=
  match v with
  | VDict items =>
      Nested OfDict
        ((fix each (kvs : list (string * value)) : list (string * node) :=
            match kvs with
            | [] => []
            | (k, x) :: kvs' => (k, stored x) :: each kvs'
            end) items)
  | VList xs =>
      Nested OfList
        ((fix each (i : nat) (vs : list value) : list (string * node) :=
            match vs with
            | [] => []
            | x :: vs' => (str_of_nat i, stored x) :: each (S i) vs'
            end) 0%nat xs)
  | _ => Scalar v
  end.

(** The [_values] of the [FlatterDict] built from plain items. *)
Definition stored_items (items : dict) : list (string * node) :=
  map (fun kv => (fst kv, stored (snd kv))) items.

(** The items of a container as [FlatterDict] takes them: those of a
    dictionary, or the elements of a list under their indices. *)
Definition items_of (v : value) : option (original_type * dict) :=
  match v with
  | VDict items => Some (OfDict, items)
  | VList xs => Some (OfList, enumerate 0 xs)
  | _ => None
  end.

(** The keys are distinct and hold no dot. *)
Definition good_keys (items : dict) : Prop :=
  NoDup (keys items) /\
  Forall (fun k => char_in delimiter k = false) (keys items).

(** The loop of [update], by name. *)
Fixpoint store (items : dict) (values : list (string * node))
  : result (list (string * node)) :=
  match items with
  | [] => Ok values
  | (k, x) :: items' =>
      n <- coerce x ;;
      values' <- setitem (split delimiter k) n values ;;
      store items' values'
  end.

(** [__getitem__] on the key of the attribute [e] finds its value. *)
Definition reads (n : node) (e : string * node) : Prop :=
  walk (split delimiter (fst e)) n = Ok (snd e).

(** The part of a key before its first dot. *)
Definition first_segment (p : string) : string :=
  hd ""%string (split delimiter p).


(** The dates of the attributes, escaped. *)
Definition escaped (entries : list (string * node)) : list (string * node) :=
  map (fun entry => (fst entry, escape (snd entry))) entries.

(** A value stored by the flattener that holds nothing further: a scalar,
    or an empty container. *)
Definition leaf (n : node) : bool :=
  match n with
  | Scalar v => scalar v
  | Nested _ inner => match inner with [] => true | _ :: _ => false end
  end.

(** A leaf that is no date: a string, a number, a boolean, [None] or an
    empty container. *)
Definition flat_value (n : node) : bool :=
  match n with
  | Scalar (VDate _) | Scalar (VDateTime _) => false
  | _ => leaf n
  end.

(** The response as the flattener takes it. *)
Definition as_mapping (boto_res : value) : dict :=
  match boto_res with
  | VDict items => items
  | _ => [("Result", boto_res)]
  end.

(** The parameter is no envelope: not a dictionary that holds a type
    tag. *)
Definition untagged (parameter : value) : bool :=
  match parameter with
  | VDict items => negb (any_type_key items)
  | _ => true
  end.

(** [typed] has the shape of [parameter]: a list of the same length, a
    dictionary with the same keys in the same order, or the same scalar. *)
Definition same_shape (parameter typed : value) : Prop :=
  match parameter with
  | VList xs => exists ys, typed = VList ys /\ List.length ys = List.length xs
  | VDict items => exists items', typed = VDict items' /\ keys items' = keys items
  | _ => typed = parameter
  end.

(* ================================================================== *)
(** ** Properties of the action bridge *)
(* ================================================================== *)

(** *** Parameter typing, unfolded *)

Lemma handle_param_typing_dict (items : dict) :
  handle_param_typing (VDict items) =
  if any_type_key items then apply_type_mapper items
  else items' <- typed_items items ;; Ok (VDict items').
Proof.
  cbn [handle_param_typing]. destruct (any_type_key items); reflexivity.
Qed.

Lemma handle_param_typing_list (xs : list value) :
  handle_param_typing (VList xs) = xs' <- typed_list xs ;; Ok (VList xs').
Proof.
  reflexivity.
Qed.

Lemma bind_ok {A B} (r : result A) (k : A -> result B) (b : B) :
  bind r k = Ok b -> exists a, r = Ok a /\ k a = Ok b.
Proof. destruct r as [a|e]; cbn; [eauto | discriminate]. Qed.

(** *** Kind resolution and the no-hook policy *)

(** C9.  Kind resolution: when the request type names a key of the resource
    properties it is the hook to run; otherwise an [Update] falls back on
    the [Create] hook when there is one; otherwise there is no hook. *)
Theorem kind_resolution (ev : event) :
  (dict_mem (RequestType ev) (ResourceProperties ev) = true ->
   request_type ev = Some (RequestType ev)) /\
  (dict_mem (RequestType ev) (ResourceProperties ev) = false ->
   RequestType ev = "Update" ->
   dict_mem "Create" (ResourceProperties ev) = true ->
   request_type ev = Some "Create") /\
  (dict_mem (RequestType ev) (ResourceProperties ev) = false ->
   (RequestType ev <> "Update" \/
    dict_mem "Create" (ResourceProperties ev) = false) ->
   request_type ev = None).
Proof.
  unfold request_type. repeat split.
  - intros ->. reflexivity.
  - intros -> -> ->. reflexivity.
  - intros -> [Hne | ->].
    + apply String.eqb_neq in Hne. rewrite Hne. reflexivity.
    + rewrite andb_false_r. reflexivity.
Qed.

(** An [Update] of a resource that only declares a [Create] hook runs the
    [Create] hook. *)
Lemma kind_resolution_witness :
  request_type (Scenario.request "Update" [("Create", Scenario.hook [])])
  = Some "Create".
Proof.
  apply (proj1 (proj2 (kind_resolution
           (Scenario.request "Update" [("Create", Scenario.hook [])]))));
    reflexivity.
Defined.

(** C1, as the code has it.  A [Create] request whose properties hold no
    [Create] key runs no hook: the handler returns no identity, calls
    nothing and leaves the attributes as they were. *)
Theorem create_without_hook_succeeds (w : env) (ev : event) (st : state) :
  RequestType ev = "Create" ->
  dict_mem "Create" (ResourceProperties ev) = false ->
  handle_custom_resource_request w ev st = (Ok None, st).
Proof.
  intros Hkind Hmem. unfold handle_custom_resource_request, request_type.
  rewrite Hkind, Hmem. reflexivity.
Qed.

Lemma create_without_hook_succeeds_witness :
  handle_custom_resource_request Scenario.world
    (Scenario.request "Create" [("ServiceToken", VStr "arn")]) Scenario.fresh
  = (Ok None, Scenario.fresh).
Proof.
  apply create_without_hook_succeeds; reflexivity.
Defined.

(** C1, as stated, fails: such a request is not failed, it succeeds. *)
Lemma create_without_hook_not_failed :
  RequestType (Scenario.request "Create" []) = "Create" /\
  dict_mem "Create" (ResourceProperties (Scenario.request "Create" [])) = false /\
  handle_custom_resource_request Scenario.world
    (Scenario.request "Create" []) Scenario.fresh = (Ok None, Scenario.fresh).
Proof.
  repeat split.
Qed.

(** *** The boolean rule *)

(** C7.  A [Type::Bool] envelope is true exactly when its string, in lower
    case, is ["true"] or ["1"]. *)
Theorem type_bool_rule :
  (forall s, exists b,
      handle_param_typing (VDict [("Type::Bool", VStr s)]) = Ok (VBool b) /\
      (b = true <-> lower s = "true" \/ lower s = "1")) /\
  Forall (fun s => handle_param_typing (VDict [("Type::Bool", VStr s)])
                   = Ok (VBool true)) ["True"; "TRUE"; "1"] /\
  Forall (fun s => handle_param_typing (VDict [("Type::Bool", VStr s)])
                   = Ok (VBool false)) ["false"; "0"; "yes"; ""].
Proof.
  split; [|split; repeat constructor].
  intros s. eexists. split; [reflexivity|].
  cbn [existsb]. rewrite orb_false_r, orb_true_iff, !String.eqb_eq.
  reflexivity.
Qed.

(** *** Parameter typing: where it is defined, and idempotence *)

Lemma type_tag_cases (k : string) :
  dict_mem k TYPE_MAPPERS = true ->
  k = "Type::Int" \/ k = "Type::Float" \/ k = "Type::Bool".
Proof.
  unfold dict_mem, TYPE_MAPPERS. cbn [dict_get].
  destruct (String.eqb_spec k "Type::Int"); [auto|].
  destruct (String.eqb_spec k "Type::Float"); [auto|].
  destruct (String.eqb_spec k "Type::Bool"); [auto|discriminate].
Qed.

Lemma find_key_present {V} (p : string -> bool) (d : list (string * V)) k :
  find p (keys d) = Some k -> exists v, dict_get k d = Some v.
Proof.
  induction d as [|[k' v'] d IH]; cbn; [discriminate|].
  destruct (p k').
  - intros [= ->]. rewrite String.eqb_refl. eauto.
  - intros H. destruct (String.eqb k k'); eauto.
Qed.

(** An envelope gives a scalar, and gives one exactly when it converts. *)
Lemma apply_type_mapper_scalar (items : dict) (y : value) :
  apply_type_mapper items = Ok y -> scalar y = true.
Proof.
  unfold apply_type_mapper.
  destruct (find _ (keys items)) as [k|] eqn:Hfind; [|discriminate].
  destruct (type_tag_cases (proj2 (find_some _ _ Hfind))) as [-> | [-> | ->]];
    cbn [dict_get TYPE_MAPPERS String.eqb Ascii.eqb Bool.eqb andb];
    cbn; unfold getitem;
    destruct (dict_get _ items) as [x|]; cbn; try discriminate.
  - destruct (py_int x); cbn; [intros [= <-]; reflexivity | discriminate].
  - destruct (py_float x); cbn; [intros [= <-]; reflexivity | discriminate].
  - destruct x; cbn; try discriminate. intros [= <-]. reflexivity.
Qed.


Lemma dict_mem_keys {V W} (d : list (string * V)) (d' : list (string * W)) k :
  keys d = keys d' -> dict_mem k d = dict_mem k d'.
Proof.
  unfold dict_mem. revert d'.
  induction d as [|[k1 v1] d IH]; intros [|[k2 v2] d']; cbn;
    try discriminate; [reflexivity|].
  intros [= -> Hkeys]. destruct (String.eqb k k2); [reflexivity | auto].
Qed.

Lemma any_type_key_keys (d d' : dict) :
  keys d = keys d' -> any_type_key d = any_type_key d'.
Proof.
  intros H. unfold any_type_key.
  induction (keys TYPE_MAPPERS) as [|k ks IH]; [reflexivity|].
  cbn. rewrite IH, (dict_mem_keys k H). reflexivity.
Qed.

Lemma typed_items_keys (items items' : dict) :
  typed_items items = Ok items' -> keys items' = keys items.
Proof.
  revert items'. induction items as [|[k v] items IH]; cbn; intros items'.
  - intros [= <-]. reflexivity.
  - intros H. apply bind_ok in H as (v' & _ & H).
    apply bind_ok in H as (rest & Hrest & [= <-]).
    unfold keys in *. cbn [map fst]. f_equal. apply IH, Hrest.
Qed.

(** What typing returns holds no envelope. *)
Lemma handle_param_typing_envelope_free (x : value) :
  forall y, handle_param_typing x = Ok y -> envelope_free y = true.
Proof.
  induction x as [| | | | | | |xs IH|items IH] using value_induction;
    intros y; try (intros [= <-]; reflexivity).
  - rewrite handle_param_typing_list. intros H.
    apply bind_ok in H as (xs' & Hxs & [= <-]). cbn [envelope_free].
    revert xs' Hxs. induction IH as [|x xs Hx _ IHxs]; cbn; intros xs'.
    + intros [= <-]. reflexivity.
    + intros H. apply bind_ok in H as (x' & Hx' & H).
      apply bind_ok in H as (rest & Hrest & [= <-]).
      rewrite (Hx _ Hx'). cbn. auto.
  - rewrite handle_param_typing_dict.
    destruct (any_type_key items) eqn:Hany.
    + intros H. apply apply_type_mapper_scalar in H.
      destruct y; try discriminate; reflexivity.
    + intros H. apply bind_ok in H as (items' & Hitems & [= <-]).
      cbn [envelope_free].
      rewrite (any_type_key_keys (typed_items_keys Hitems)), Hany. cbn.
      clear Hany. revert items' Hitems.
      induction IH as [|[k x] items Hx _ IHitems]; cbn; intros items'.
      * intros [= <-]. reflexivity.
      * intros H. apply bind_ok in H as (x' & Hx' & H).
        apply bind_ok in H as (rest & Hrest & [= <-]).
        rewrite (Hx _ Hx'). cbn. auto.
Qed.

(** A value that holds no envelope is returned as it is. *)
Lemma handle_param_typing_fixed (y : value) :
  envelope_free y = true -> handle_param_typing y = Ok y.
Proof.
  induction y as [| | | | | | |xs IH|items IH] using value_induction;
    try reflexivity.
  - cbn [envelope_free]. rewrite handle_param_typing_list. intros H.
    assert (Hxs : typed_list xs = Ok xs); [|rewrite Hxs; reflexivity].
    induction IH as [|x xs Hx _ IHxs]; [reflexivity|].
    apply andb_prop in H as [H1 H2]. cbn.
    rewrite (Hx H1). cbn. rewrite (IHxs H2). reflexivity.
  - cbn [envelope_free]. rewrite handle_param_typing_dict. intros H.
    apply andb_prop in H as [Hany H]. apply negb_true_iff in Hany.
    rewrite Hany.
    assert (Hitems : typed_items items = Ok items);
      [|rewrite Hitems; reflexivity].
    clear Hany. induction IH as [|[k x] items Hx _ IHitems]; [reflexivity|].
    apply andb_prop in H as [H1 H2]. cbn [snd] in Hx. cbn.
    rewrite (Hx H1). cbn. rewrite (IHitems H2). reflexivity.
Qed.

(** C6.  Parameter typing is idempotent: what it returns holds no envelope
    and is returned unchanged when typed again. *)
Theorem handle_param_typing_idempotent (x y : value) :
  handle_param_typing x = Ok y ->
  handle_param_typing y = Ok y /\ envelope_free y = true.
Proof.
  intros H. pose proof (handle_param_typing_envelope_free H) as Hfree.
  split; [apply handle_param_typing_fixed|]; exact Hfree.
Qed.

Lemma handle_param_typing_idempotent_witness :
  let y := VDict [("Count", VInt 42); ("Flags", VList [VBool true; VStr "x"])] in
  handle_param_typing y = Ok y /\ envelope_free y = true.
Proof.
  apply (@handle_param_typing_idempotent
           (VDict [("Count", VDict [("Type::Int", VStr "42")]);
                   ("Flags", VList [VDict [("Type::Bool", VStr "True")];
                                    VStr "x"])])).
  reflexivity.
Defined.




(** *** Identity resolution *)

(** C5.  A [Create] or [Update] hook with a path query: when the remote
    call has returned and the query on its raw result gives nothing, the
    handler raises, after the call and with the attributes already set, an
    error that says the resource is not rolled back and must be deleted
    manually. *)
Theorem absent_identity_is_fatal
    (w : env) (ev : event) (st : state) (rt service name : string)
    (hook : dict) (cl : client) (call : dict -> result value)
    (parameters expression boto_res physical_id : value) (args : dict)
    (data : list (string * node)) :
  request_type ev = Some rt ->
  rt = "Create" \/ rt = "Update" ->
  dict_get rt (ResourceProperties ev) = Some (VDict hook) ->
  dict_get "Client" hook = Some (VStr service) ->
  dict_get "Method" hook = Some (VStr name) ->
  boto3_client w service = Ok cl ->
  cl name = Method call ->
  get (VDict hook) "Parameters" (VDict []) = Ok parameters ->
  handle_param_typing parameters = Ok (VDict args) ->
  call args = Ok boto_res ->
  response_data boto_res = Ok data ->
  dict_get "PhysicalResourceId" hook = Some expression ->
  truthy expression = true ->
  search w expression boto_res = Ok physical_id ->
  truthy physical_id = false ->
  handle_custom_resource_request w ev st =
    (Raise (Raised ValueError (no_result_message rt)),
     {| Data := data; calls := calls st ++ [(service, name, args)] |}) /\
  str_contains (no_result_message rt) manual_remediation = true.
Proof.
  intros Hrt Hkind Hhook Hclient Hmethod Hboto Hattr Hparams Htyped Hcall
    Hdata Hexpr Htruthy Hsearch Habsent.
  split; [|destruct Hkind as [-> | ->]; reflexivity].
  unfold handle_custom_resource_request. rewrite Hrt.
  unfold mbind, lift, getitem. rewrite Hhook, Hclient, Hmethod, Hparams, Hboto.
  rewrite Hattr. unfold mbind, lift. rewrite Htyped. cbn [kwargs].
  unfold invoke. rewrite Hcall, Hdata. cbn [set_Data].
  assert (Hin : existsb (String.eqb rt) ["Create"; "Update"] = true)
    by (destruct Hkind as [-> | ->]; reflexivity).
  rewrite Hin. unfold mbind, lift, get. rewrite Hexpr, Htruthy, Hsearch, Habsent.
  reflexivity.
Qed.

(** Scenario C of the specification: the path names a key the response
    does not have. *)
Lemma absent_identity_is_fatal_witness :
  let ev := Scenario.request "Create"
              [("Create", Scenario.hook [("PhysicalResourceId", VStr "Name")])] in
  handle_custom_resource_request Scenario.world ev Scenario.fresh =
    (Raise (Raised ValueError (no_result_message "Create")),
     {| Data := [("Location", Scalar (VStr "/x"))];
        calls := [("s3", "create_bucket", [("Bucket", VStr "x")])] |}) /\
  str_contains (no_result_message "Create") manual_remediation = true.
Proof.
  intros ev.
  apply (@absent_identity_is_fatal Scenario.world ev Scenario.fresh "Create"
           "s3" "create_bucket"
           [("Client", VStr "s3"); ("Method", VStr "create_bucket");
            ("Parameters", VDict [("Bucket", VStr "x")]);
            ("PhysicalResourceId", VStr "Name")]
           Scenario.s3 Scenario.create_bucket
           (VDict [("Bucket", VStr "x")]) (VStr "Name")
           (VDict [("Location", VStr "/x")]) VNone
           [("Bucket", VStr "x")] [("Location", Scalar (VStr "/x"))]);
    first [reflexivity | left; reflexivity].
Defined.

(** Scenarios A and B of the specification. *)
Example create_without_path :
  handle_custom_resource_request Scenario.world
    (Scenario.request "Create" [("Create", Scenario.hook [])]) Scenario.fresh
  = (Ok None,
     {| Data := [("Location", Scalar (VStr "/x"))];
        calls := [("s3", "create_bucket", [("Bucket", VStr "x")])] |}).
Proof. reflexivity. Qed.

Example create_with_path :
  handle_custom_resource_request Scenario.world
    (Scenario.request "Create"
       [("Create", Scenario.hook [("PhysicalResourceId", VStr "Location")])])
    Scenario.fresh
  = (Ok (Some "/x"),
     {| Data := [("Location", Scalar (VStr "/x")); ("Ref", Scalar (VStr "/x"))];
        calls := [("s3", "create_bucket", [("Bucket", VStr "x")])] |}).
Proof. reflexivity. Qed.

(* ================================================================== *)
(** ** Properties of ordered dictionaries *)
(* ================================================================== *)

Section DictFacts.
Context {V : Type}.
Implicit Types (d : list (string * V)) (k : string) (v : V).

Lemma dict_get_absent d k : ~ In k (keys d) -> dict_get k d = None.
Proof.
  induction d as [|[k' v'] d IH]; cbn; [reflexivity|]. intros H.
  destruct (String.eqb_spec k k') as [-> | _]; [tauto | auto].
Qed.

Lemma dict_get_app d d' k :
  dict_get k (d ++ d') =
  match dict_get k d with Some v => Some v | None => dict_get k d' end.
Proof.
  induction d as [|[k' v'] d IH]; cbn; [reflexivity|].
  destruct (String.eqb k k'); auto.
Qed.

Lemma dict_set_absent d k v :
  dict_get k d = None -> dict_set k v d = d ++ [(k, v)].
Proof.
  induction d as [|[k' v'] d IH]; cbn; [reflexivity|].
  destruct (String.eqb k k'); [discriminate|]. intros H. f_equal. auto.
Qed.

Lemma dict_get_set_same d k v : dict_get k (dict_set k v d) = Some v.
Proof.
  induction d as [|[k' v'] d IH]; cbn.
  - rewrite String.eqb_refl. reflexivity.
  - destruct (String.eqb k k') eqn:E; cbn.
    + rewrite String.eqb_refl. reflexivity.
    + rewrite E. exact IH.
Qed.

Lemma dict_get_set_other d k k' v :
  k' <> k -> dict_get k' (dict_set k v d) = dict_get k' d.
Proof.
  intros Hne. induction d as [|[k1 v1] d IH]; cbn.
  - apply String.eqb_neq in Hne. rewrite Hne. reflexivity.
  - destruct (String.eqb_spec k k1) as [-> | _]; cbn.
    + apply String.eqb_neq in Hne. rewrite Hne. reflexivity.
    + rewrite IH. reflexivity.
Qed.

(** [{k: x, ...rest, **more}]: the first key stays first and takes the
    value [more] gives it, if any; the other items of [more] follow in
    order. *)
Lemma dict_update_onto more : forall k (x : V) rest,
  NoDup (keys more) ->
  (forall k', In k' (keys more) -> k' <> k -> dict_get k' rest = None) ->
  dict_update ((k, x) :: rest) more =
  (k, match dict_get k more with Some v => v | None => x end)
    :: rest ++ filter (fun kv => negb (String.eqb (fst kv) k)) more.
Proof.
  unfold dict_update.
  induction more as [|[k1 v1] more IH]; intros k x rest Hnodup Hrest.
  - cbn. rewrite app_nil_r. reflexivity.
  - cbn [keys map fst] in Hnodup. apply NoDup_cons_iff in Hnodup as [Hk1 Hnodup].
    cbn [fold_left fst snd dict_set filter dict_get].
    destruct (String.eqb_spec k1 k) as [-> | Hne].
    + rewrite String.eqb_refl. cbn [negb].
      rewrite IH; [|exact Hnodup|].
      * rewrite (dict_get_absent Hk1). reflexivity.
      * intros k' Hin Hk'. apply Hrest; [right; exact Hin | exact Hk'].
    + assert (Hkk1 : String.eqb k k1 = false)
        by (apply String.eqb_neq; congruence).
      rewrite Hkk1. cbn [negb].
      rewrite (dict_set_absent (k:=k1) v1 (d:=rest));
        [|apply Hrest; [left; reflexivity | exact Hne]].
      rewrite IH; [|exact Hnodup|].
      * rewrite <- app_assoc. reflexivity.
      * intros k' Hin Hk'. rewrite dict_get_app.
        rewrite (Hrest k'); [|right; exact Hin | exact Hk']. cbn.
        destruct (String.eqb_spec k' k1) as [-> | _]; [tauto | reflexivity].
Qed.
End DictFacts.

(* ================================================================== *)
(** ** Properties of the resource-type rewriter *)
(* ================================================================== *)

Lemma char_in_suffix (c b : ascii) (p : string) :
  char_in c p = true -> char_in c (String b p) = true.
Proof. cbn. intros ->. apply orb_true_r. Qed.

(** [lstrip] removes at least the prefix it is given. *)
Lemma lstrip_prefix (chars : string) : forall p s,
  (forall c, char_in c p = true -> char_in c chars = true) ->
  startswith s p = true ->
  lstrip s chars = lstrip (without_prefix s p) chars.
Proof.
  induction p as [|b p IH]; intros s Hsub; [destruct s; reflexivity|].
  destruct s as [|a s]; [discriminate|]. cbn [startswith without_prefix].
  intros H. apply andb_prop in H as [Hab Hstart].
  apply Ascii.eqb_eq in Hab as ->. cbn [lstrip].
  rewrite (Hsub b) by (cbn; rewrite Ascii.eqb_refl; reflexivity).
  apply IH; [|exact Hstart].
  intros c Hc. apply Hsub, char_in_suffix, Hc.
Qed.

(** Where the character-set strip and the literal removal agree: when what
    follows the prefix is empty or starts with a character the prefix does
    not have. *)
Lemma lstrip_exact (s p : string) :
  startswith s p = true ->
  match without_prefix s p with
  | EmptyString => True
  | String c _ => char_in c p = false
  end ->
  lstrip s p = without_prefix s p.
Proof.
  intros Hstart Hhead. rewrite (lstrip_prefix (p:=p)); auto.
  destruct (without_prefix s p) as [|c rest]; [reflexivity|].
  cbn. rewrite Hhead. reflexivity.
Qed.

(** What the comprehension builds for an entry it takes for a custom
    resource. *)
Lemma replace_custom_resource
    (prefix : string) (tokens fields properties : dict) (ty : string)
    (token : value) :
  dict_get "Type" fields = Some (VStr ty) ->
  startswith ty prefix = true ->
  dict_get (lstrip ty prefix) tokens = Some token ->
  dict_get "Properties" fields = Some (VDict properties) ->
  NoDup (keys properties) ->
  replace_resource prefix tokens (VDict fields) =
  Ok (VDict (dict_set "Properties"
               (VDict (delegate_properties token properties))
               (dict_set "Type" (VStr CUSTOM_RESOURCE) fields))).
Proof.
  intros Hty Hstart Htoken Hprops Hnodup.
  unfold replace_resource, is_custom, custom_resource, contains, getitem, get,
    dict_mem.
  rewrite Hty. cbn. rewrite Hstart. cbn. rewrite Htoken. cbn.
  rewrite Hprops. cbn.
  rewrite dict_update_onto; [reflexivity | exact Hnodup |].
  intros k' _ _. reflexivity.
Qed.

Lemma filter_other_keys {V} (d : list (string * V)) (k : string) :
  dict_get k d = None ->
  filter (fun kv => negb (String.eqb (fst kv) k)) d = d.
Proof.
  induction d as [|[k' v'] d IH]; cbn; [reflexivity|].
  rewrite (String.eqb_sym k' k).
  destruct (String.eqb k k'); [discriminate|]. cbn. intros H. f_equal. auto.
Qed.

(** Where the rewriter does what is asked of it: the name after the prefix
    is empty or starts with a character the prefix does not have, it has a
    token, and the properties hold no [ServiceToken] of their own.  The
    entry becomes a custom resource whose properties are the token and then
    the entry's properties, in order. *)
Lemma replace_when_lstrip_exact
    (prefix : string) (tokens fields properties : dict) (ty : string)
    (token : value) :
  dict_get "Type" fields = Some (VStr ty) ->
  startswith ty prefix = true ->
  match without_prefix ty prefix with
  | EmptyString => True
  | String c _ => char_in c prefix = false
  end ->
  dict_get (without_prefix ty prefix) tokens = Some token ->
  dict_get "Properties" fields = Some (VDict properties) ->
  NoDup (keys properties) ->
  dict_get "ServiceToken" properties = None ->
  replace_resource prefix tokens (VDict fields) =
  Ok (VDict (dict_set "Properties"
               (VDict (("ServiceToken", token) :: properties))
               (dict_set "Type" (VStr CUSTOM_RESOURCE) fields))).
Proof.
  intros Hty Hstart Hhead Htoken Hprops Hnodup Hown.
  rewrite <- (lstrip_exact Hstart Hhead) in Htoken.
  rewrite (replace_custom_resource Hty Hstart Htoken Hprops Hnodup).
  unfold delegate_properties. rewrite Hown, (filter_other_keys Hown).
  reflexivity.
Qed.

(** C3, at the input where the code departs from it.  With the prefix
    [MyCustom::] and a token for [Mouse], the type [MyCustom::Mouse] starts
    with the prefix and leaves [Mouse] when the prefix is removed, but
    [lstrip] leaves [e], which has no token: the entry is returned as it
    came. *)
Theorem lstrip_strips_into_the_suffix :
  let prefix := "MyCustom::" in
  let tokens := [("Mouse", VStr "arn:aws:lambda:mouse")] in
  let entry := VDict [("Type", VStr "MyCustom::Mouse");
                      ("Properties", VDict [("Name", VStr "Jerry")])] in
  startswith "MyCustom::Mouse" prefix = true /\
  without_prefix "MyCustom::Mouse" prefix = "Mouse" /\
  dict_mem "Mouse" tokens = true /\
  lstrip "MyCustom::Mouse" prefix = "e" /\
  replace_fragment_resources prefix tokens [("Pet", entry)]
  = Ok [("Pet", entry)].
Proof. repeat split. Qed.

(** The test of the repository: a type whose name after the prefix starts
    outside the prefix's characters is rewritten. *)
Example successful_replacement :
  replace_fragment_resources "MyCustom::"
    [("TypeA", VStr "arn:aws:lambda:us-east-1:123456789012:function:my-function-a")]
    [("MyCustom::TypeA",
      VDict [("Type", VStr "MyCustom::TypeA");
             ("Properties",
              VDict [("Property1", VStr "Value1");
                     ("Property2", VStr "Value2")])]);
     ("AWS::EC2::Instance",
      VDict [("Type", VStr "AWS::EC2::Instance");
             ("Properties",
              VDict [("ImageId", VStr "ami-0c55b159cbfafe1f0")])])]
  = Ok
    [("MyCustom::TypeA",
      VDict [("Type", VStr "AWS::CloudFormation::CustomResource");
             ("Properties",
              VDict [("ServiceToken",
                      VStr "arn:aws:lambda:us-east-1:123456789012:function:my-function-a");
                     ("Property1", VStr "Value1");
                     ("Property2", VStr "Value2")])]);
     ("AWS::EC2::Instance",
      VDict [("Type", VStr "AWS::EC2::Instance");
             ("Properties",
              VDict [("ImageId", VStr "ami-0c55b159cbfafe1f0")])])].
Proof. reflexivity. Qed.





(** C10.  A rewritten entry whose properties hold a [ServiceToken] keeps
    that value: the properties are unpacked after the configured token and
    override it. *)
Theorem own_service_token_wins
    (prefix : string) (tokens fields properties : dict) (ty : string)
    (token own : value) :
  dict_get "Type" fields = Some (VStr ty) ->
  startswith ty prefix = true ->
  dict_get (lstrip ty prefix) tokens = Some token ->
  dict_get "Properties" fields = Some (VDict properties) ->
  NoDup (keys properties) ->
  dict_get "ServiceToken" properties = Some own ->
  exists fields' properties',
    replace_resource prefix tokens (VDict fields) = Ok (VDict fields') /\
    dict_get "Type" fields' = Some (VStr CUSTOM_RESOURCE) /\
    dict_get "Properties" fields' = Some (VDict properties') /\
    dict_get "ServiceToken" properties' = Some own.
Proof.
  intros Hty Hstart Htoken Hprops Hnodup Hown.
  exists (dict_set "Properties" (VDict (delegate_properties token properties))
            (dict_set "Type" (VStr CUSTOM_RESOURCE) fields)),
         (delegate_properties token properties).
  split; [exact (replace_custom_resource Hty Hstart Htoken Hprops Hnodup)|].
  split; [|split].
  - rewrite dict_get_set_other by discriminate. apply dict_get_set_same.
  - apply dict_get_set_same.
  - unfold delegate_properties. cbn. rewrite Hown. reflexivity.
Qed.

Lemma own_service_token_wins_witness :
  exists fields' properties',
    replace_resource "MyCustom::" [("TypeA", VStr "arn:configured")]
      (VDict [("Type", VStr "MyCustom::TypeA");
              ("Properties",
               VDict [("Name", VStr "n");
                      ("ServiceToken", VStr "arn:own")])])
    = Ok (VDict fields') /\
    dict_get "Type" fields' = Some (VStr CUSTOM_RESOURCE) /\
    dict_get "Properties" fields' = Some (VDict properties') /\
    dict_get "ServiceToken" properties' = Some (VStr "arn:own").
Proof.
  apply (@own_service_token_wins "MyCustom::"
           [("TypeA", VStr "arn:configured")]
           [("Type", VStr "MyCustom::TypeA");
            ("Properties",
             VDict [("Name", VStr "n");
                    ("ServiceToken", VStr "arn:own")])]
           [("Name", VStr "n"); ("ServiceToken", VStr "arn:own")]
           "MyCustom::TypeA" (VStr "arn:configured") (VStr "arn:own"));
    try reflexivity.
  apply NoDup_cons; [cbn; intros [H | []]; discriminate H|].
  apply NoDup_cons; [intros []|]. apply NoDup_nil.
Defined.

(* ================================================================== *)
(** ** Properties of the response flattener *)
(* ================================================================== *)

(** *** Strings and indices *)

Lemma split_plain (sep : ascii) (k : string) :
  char_in sep k = false -> split sep k = [k].
Proof.
  induction k as [|c k IH]; [reflexivity|]. cbn.
  rewrite Ascii.eqb_sym. destruct (Ascii.eqb c sep); [discriminate|].
  cbn. intros H. rewrite (IH H). reflexivity.
Qed.

Lemma split_under (sep : ascii) (k p : string) :
  char_in sep k = false ->
  split sep (k ++ String sep p)%string = k :: split sep p.
Proof.
  induction k as [|c k IH]; cbn.
  - rewrite Ascii.eqb_refl. reflexivity.
  - rewrite Ascii.eqb_sym. destruct (Ascii.eqb c sep); [discriminate|].
    cbn. intros H. rewrite (IH H). reflexivity.
Qed.

Lemma append_inj (k a b : string) : (k ++ a = k ++ b)%string -> a = b.
Proof. induction k as [|c k IH]; cbn; [auto|]. intros [= H]. auto. Qed.

Lemma to_uint_nonnil (n : nat) : Nat.to_uint n <> Decimal.Nil.
Proof.
  rewrite <- (DecimalNat.Unsigned.of_to n) at 1.
  rewrite DecimalNat.Unsigned.to_of. apply DecimalFacts.unorm_nonnil.
Qed.

Lemma str_of_nat_inj (i j : nat) : str_of_nat i = str_of_nat j -> i = j.
Proof.
  unfold str_of_nat. intros H. apply DecimalNat.Unsigned.to_uint_inj.
  pose proof (@NilZero.usu _ (@to_uint_nonnil i)) as Hi.
  pose proof (@NilZero.usu _ (@to_uint_nonnil j)) as Hj.
  rewrite H, Hj in Hi. congruence.
Qed.

Lemma digits_plain (d : Decimal.uint) :
  char_in delimiter (NilEmpty.string_of_uint d) = false.
Proof. induction d; cbn; auto. Qed.

Lemma str_of_nat_plain (i : nat) : char_in delimiter (str_of_nat i) = false.
Proof.
  unfold str_of_nat, NilZero.string_of_uint.
  destruct (Nat.to_uint i) eqn:E; try (rewrite <- E; apply digits_plain).
  reflexivity.
Qed.

(** *** Containers, seen as lists of items *)

Lemma coerce_items (v : value) :
  coerce v =
  match items_of v with
  | Some (t, items) => values <- store items [] ;; Ok (Nested t values)
  | None => Ok (Scalar v)
  end.
Proof.
  destruct v; try reflexivity. cbn [coerce items_of]. f_equal.
  generalize (@nil (string * node)). generalize 0%nat.
  induction xs as [|x xs IH]; intros i values; [reflexivity|].
  cbn [enumerate store]. destruct (coerce x) as [n|e]; [|reflexivity].
  cbn [bind]. destruct (setitem _ n values) as [values'|e]; [|reflexivity].
  cbn [bind]. apply IH.
Qed.

Lemma stored_items_of (v : value) :
  stored v =
  match items_of v with
  | Some (t, items) => Nested t (stored_items items)
  | None => Scalar v
  end.
Proof.
  destruct v; try reflexivity; cbn [stored items_of]; f_equal.
  - generalize 0%nat. induction xs as [|x xs IH]; intros i; [reflexivity|].
    cbn. f_equal. apply IH.
  - induction items as [|[k x] items IH]; [reflexivity|].
    cbn. f_equal. apply IH.
Qed.

Lemma dotted_enumerate (i : nat) (vs : list value) :
  (fix each (i : nat) (vs : list value) : list (string * node) :=
     match vs with
     | [] => []
     | x :: vs' => dotted_item (str_of_nat i) x ++ each (S i) vs'
     end) i vs = dotted (enumerate i vs).
Proof.
  revert i. induction vs as [|x vs IH]; intros i; [reflexivity|].
  cbn [enumerate dotted]. f_equal. apply IH.
Qed.

Lemma dotted_items_of (key : string) (v : value) :
  dotted_item key v =
  match items_of v with
  | Some (t, []) => [(key, Nested t [])]
  | Some (t, items) => under key (dotted items)
  | None => [(key, Scalar v)]
  end.
Proof.
  destruct v; try reflexivity; cbn [items_of].
  destruct xs as [|x xs]; [reflexivity|].
  transitivity (under key (dotted (enumerate 0 (x :: xs)))); [|reflexivity].
  rewrite <- dotted_enumerate. reflexivity.
Qed.

Lemma distinct_NoDup (ks : list string) : distinct ks = true -> NoDup ks.
Proof.
  induction ks as [|k ks IH]; cbn; [constructor|]. intros H.
  apply andb_prop in H as [Hk Hks]. constructor; [|auto].
  intros Hin. apply negb_true_iff in Hk.
  assert (existsb (String.eqb k) ks = true); [|congruence].
  apply existsb_exists. exists k. split; [exact Hin | apply String.eqb_refl].
Qed.

Lemma enumerate_keys (i : nat) (xs : list value) (k : string) :
  In k (keys (enumerate i xs)) -> exists j, (i <= j)%nat /\ k = str_of_nat j.
Proof.
  revert i. induction xs as [|x xs IH]; intros i; cbn; [tauto|].
  intros [<- | Hin]; [eauto|].
  destruct (IH _ Hin) as (j & Hj & ->). exists j. split; [lia | reflexivity].
Qed.

Lemma enumerate_good (i : nat) (xs : list value) : good_keys (enumerate i xs).
Proof.
  revert i. induction xs as [|x xs IH]; intros i; split; cbn;
    try constructor; try apply IH.
  - intros Hin. apply enumerate_keys in Hin as (j & Hj & Heq).
    apply str_of_nat_inj in Heq. lia.
  - apply str_of_nat_plain.
Qed.

Lemma enumerate_Forall (Q : value -> Prop) (i : nat) (xs : list value) :
  Forall Q xs -> Forall (fun kv => Q (snd kv)) (enumerate i xs).
Proof.
  intros H. revert i. induction H; intros i; cbn; constructor; auto.
Qed.

(** Induction on plain values: a container is reached through its items,
    whose keys are distinct and hold no dot. *)
Theorem plain_induction (P : value -> Prop) :
  (forall v,
      (forall t items, items_of v = Some (t, items) ->
                       good_keys items /\
                       Forall (fun kv => plain (snd kv) = true /\ P (snd kv))
                         items) ->
      P v) ->
  forall v, plain v = true -> P v.
Proof.
  intros Hstep.
  induction v as [| | | | | | |xs IH|items IH] using value_induction;
    intros Hplain; apply Hstep; intros ot its E; try discriminate E;
    injection E as <- <-.
  - split; [apply enumerate_good|].
    apply (@enumerate_Forall (fun x => plain x = true /\ P x)).
    cbn [plain] in Hplain. induction IH as [|x xs Hx _ IHxs]; constructor.
    + apply andb_prop in Hplain as [H _]. auto.
    + apply IHxs. apply andb_prop in Hplain as [_ H]. exact H.
  - cbn [plain] in Hplain. apply andb_prop in Hplain as [Hdistinct Hall].
    split; [split|].
    + apply distinct_NoDup, Hdistinct.
    + clear IH Hdistinct. induction items as [|[k x] items IHitems];
        cbn; constructor.
      * apply andb_prop in Hall as [H _]. apply andb_prop in H as [H _].
        apply negb_true_iff in H. exact H.
      * apply IHitems. apply andb_prop in Hall as [_ H]. exact H.
    + clear Hdistinct. induction IH as [|[k x] items Hx _ IHitems];
        constructor.
      * apply andb_prop in Hall as [H _].
        apply andb_prop in H as [_ H]. auto.
      * apply IHitems. apply andb_prop in Hall as [_ H]. exact H.
Qed.

Lemma plain_items (v : value) (t : original_type) (items : dict) :
  plain v = true -> items_of v = Some (t, items) ->
  good_keys items /\ Forall (fun kv => plain (snd kv) = true) items.
Proof.
  intros Hplain. revert t items.
  apply (@plain_induction (fun v => forall t items,
           items_of v = Some (t, items) ->
           good_keys items /\ Forall (fun kv => plain (snd kv) = true) items));
    [|exact Hplain].
  intros v' Hv' t items E. destruct (Hv' _ _ E) as [Hgood Hall].
  split; [exact Hgood|]. eapply Forall_impl; [|exact Hall].
  intros kv [H _]. exact H.
Qed.

(** *** Storing a plain response *)

Lemma store_plain (items : dict) : forall values,
  good_keys items ->
  (forall k, In k (keys items) -> dict_get k values = None) ->
  Forall (fun kv => coerce (snd kv) = Ok (stored (snd kv))) items ->
  store items values = Ok (values ++ stored_items items).
Proof.
  induction items as [|[k x] items IH]; intros values [Hnodup Hplain] Hfresh Hall.
  - cbn. rewrite List.app_nil_r. reflexivity.
  - cbn [keys map fst] in Hnodup, Hplain.
    apply NoDup_cons_iff in Hnodup as [Hk Hnodup].
    inversion Hplain as [|? ? Hkplain Hplain']; subst.
    inversion Hall as [|? ? Hx Hall']; subst. cbn [snd] in Hx.
    cbn [store]. rewrite Hx. cbn [bind]. rewrite (split_plain Hkplain).
    cbn [setitem bind].
    rewrite (dict_set_absent (stored x) (Hfresh k (or_introl eq_refl))).
    rewrite IH; [|split; assumption| |exact Hall'].
    + rewrite <- List.app_assoc. reflexivity.
    + intros k' Hin. rewrite dict_get_app, (Hfresh k' (or_intror Hin)). cbn.
      destruct (String.eqb_spec k' k) as [-> | _]; [tauto | reflexivity].
Qed.

Lemma coerce_plain (v : value) : plain v = true -> coerce v = Ok (stored v).
Proof.
  revert v. apply plain_induction. intros v Hv.
  rewrite coerce_items, stored_items_of.
  destruct (items_of v) as [[t items]|]; [|reflexivity].
  destruct (Hv _ _ eq_refl) as [Hgood Hall].
  rewrite (@store_plain items []); [reflexivity | exact Hgood | reflexivity |].
  eapply Forall_impl; [|exact Hall]. intros kv [_ H]. exact H.
Qed.

(** *** The keys of a stored response *)

Lemma item_keys_nested (key : string) (t : original_type)
    (inner : list (string * node)) :
  item_keys key (Nested t inner) =
  match flat_keys inner with
  | [] => [key]
  | _ :: _ => map (fun k => key ++ String delimiter k)%string (flat_keys inner)
  end.
Proof. reflexivity. Qed.

Lemma item_keys_nonempty (key : string) (n : node) : item_keys key n <> [].
Proof.
  destruct n as [v|t inner]; [discriminate|]. rewrite item_keys_nested.
  destruct (flat_keys inner); discriminate.
Qed.

Lemma flat_keys_stored (items : dict) :
  Forall (fun kv => forall key,
              item_keys key (stored (snd kv)) = map fst (dotted_item key (snd kv)))
    items ->
  flat_keys (stored_items items) = map fst (dotted items).
Proof.
  induction 1 as [|[k x] items Hx _ IH]; [reflexivity|].
  cbn [stored_items map fst snd flat_keys dotted] in *.
  rewrite map_app, Hx. f_equal. exact IH.
Qed.

Lemma under_keys (key : string) (entries : list (string * node)) :
  map fst (under key entries) =
  map (fun k => key ++ String delimiter k)%string (map fst entries).
Proof. unfold under. rewrite !map_map. reflexivity. Qed.

Lemma item_keys_plain (v : value) :
  plain v = true ->
  forall key, item_keys key (stored v) = map fst (dotted_item key v).
Proof.
  revert v.
  apply (@plain_induction (fun v => forall key,
           item_keys key (stored v) = map fst (dotted_item key v))).
  intros v Hv key. rewrite stored_items_of, dotted_items_of.
  destruct (items_of v) as [[t items]|]; [|reflexivity].
  destruct (Hv _ _ eq_refl) as [_ Hall].
  assert (Hkeys : flat_keys (stored_items items) = map fst (dotted items)).
  { apply flat_keys_stored. eapply Forall_impl; [|exact Hall].
    intros kv [_ H]. exact H. }
  rewrite item_keys_nested, Hkeys.
  destruct items as [|[k x] items]; [reflexivity|].
  rewrite under_keys.
  assert (Hne : map fst (dotted ((k, x) :: items)) <> []).
  { rewrite <- Hkeys. cbn. intros E.
    apply app_eq_nil in E as [E _]. exact (item_keys_nonempty E). }
  destruct (map fst (dotted ((k, x) :: items))); [congruence | reflexivity].
Qed.

(** *** Reading a stored response back *)

Lemma dict_get_in_nodup {V} (d : list (string * V)) (k : string) (v : V) :
  NoDup (keys d) -> In (k, v) d -> dict_get k d = Some v.
Proof.
  induction d as [|[k' v'] d IH]; cbn; [tauto|]. intros Hnodup.
  apply NoDup_cons_iff in Hnodup as [Hk' Hnodup]. intros [[= -> ->] | Hin].
  - rewrite String.eqb_refl. reflexivity.
  - destruct (String.eqb_spec k k') as [-> | _]; [|auto].
    exfalso. apply Hk'. apply (in_map fst) in Hin. exact Hin.
Qed.

Lemma in_dotted (items : dict) (e : string * node) :
  In e (dotted items) -> exists k x, In (k, x) items /\ In e (dotted_item k x).
Proof.
  induction items as [|[k x] items IH]; cbn; [tauto|]. intros Hin.
  apply in_app_or in Hin as [Hin | Hin].
  - exists k, x. auto.
  - destruct (IH Hin) as (k' & x' & Hin' & He). exists k', x'. auto.
Qed.

Lemma walk_plain (v : value) :
  plain v = true ->
  forall key t values,
    char_in delimiter key = false ->
    dict_get key values = Some (stored v) ->
    Forall (reads (Nested t values)) (dotted_item key v).
Proof.
  revert v.
  apply (@plain_induction (fun v => forall key t values,
           char_in delimiter key = false ->
           dict_get key values = Some (stored v) ->
           Forall (reads (Nested t values)) (dotted_item key v))).
  intros v Hv key t0 values Hkey Hget.
  rewrite stored_items_of in Hget. rewrite dotted_items_of.
  destruct (items_of v) as [[t items]|].
  - destruct (Hv _ _ eq_refl) as [[Hnodup Hplain] Hall].
    destruct items as [|kx items].
    + repeat constructor. unfold reads. cbn [fst snd].
      rewrite (split_plain Hkey). cbn [walk]. rewrite Hget. reflexivity.
    + apply Forall_forall. intros e He. unfold under in He.
      apply in_map_iff in He as (e' & <- & He'). unfold reads. cbn [fst snd].
      rewrite (split_under _ Hkey). cbn [walk]. rewrite Hget.
      apply in_dotted in He' as (k & x & Hin & He').
      rewrite Forall_forall in Hall. destruct (Hall _ Hin) as [_ Hx].
      cbn [snd] in Hx.
      assert (Hk : char_in delimiter k = false).
      { rewrite Forall_forall in Hplain. apply Hplain.
        apply (in_map fst) in Hin. exact Hin. }
      assert (Hstored : dict_get k (stored_items (kx :: items)) = Some (stored x)).
      { apply dict_get_in_nodup.
        - unfold keys, stored_items. rewrite map_map. exact Hnodup.
        - unfold stored_items.
          apply (in_map (fun kv => (fst kv, stored (snd kv)))) in Hin.
          exact Hin. }
      specialize (Hx k t _ Hk Hstored). rewrite Forall_forall in Hx.
      exact (Hx _ He').
  - repeat constructor. unfold reads. cbn [fst snd].
    rewrite (split_plain Hkey). cbn [walk]. rewrite Hget. reflexivity.
Qed.

Lemma read_all (values : list (string * node)) (entries : list (string * node)) :
  forall acc,
    NoDup (map fst entries) ->
    (forall k, In k (map fst entries) -> dict_get k acc = None) ->
    Forall (reads (Nested OfDict values)) entries ->
    read values (map fst entries) acc = Ok (acc ++ entries).
Proof.
  induction entries as [|[k n] entries IH]; intros acc Hnodup Hfresh Hall.
  - cbn. rewrite List.app_nil_r. reflexivity.
  - cbn [map fst] in Hnodup. apply NoDup_cons_iff in Hnodup as [Hk Hnodup].
    inversion Hall as [|? ? Hread Hall']; subst.
    unfold reads in Hread. cbn [fst snd] in Hread.
    cbn [map fst read]. unfold flat_getitem. rewrite Hread. cbn [bind].
    rewrite (dict_set_absent n (Hfresh k (or_introl eq_refl))).
    rewrite IH; [|exact Hnodup| |exact Hall'].
    + rewrite <- List.app_assoc. reflexivity.
    + intros k' Hin. rewrite dict_get_app, (Hfresh k' (or_intror Hin)). cbn.
      destruct (String.eqb_spec k' k) as [-> | _]; [tauto | reflexivity].
Qed.

(** *** The keys of the attributes are distinct *)

Lemma first_segment_item (key : string) (v : value) (p : string) :
  char_in delimiter key = false ->
  In p (map fst (dotted_item key v)) -> first_segment p = key.
Proof.
  intros Hkey. rewrite dotted_items_of. unfold first_segment.
  destruct (items_of v) as [[t [|kx items]]|].
  - cbn [map fst In]. intros [<- | []].
    rewrite (split_plain Hkey). reflexivity.
  - rewrite under_keys. intros Hin.
    apply in_map_iff in Hin as (p' & <- & _).
    rewrite (split_under _ Hkey). reflexivity.
  - cbn [map fst In]. intros [<- | []].
    rewrite (split_plain Hkey). reflexivity.
Qed.

Lemma first_segment_items (items : dict) (p : string) :
  Forall (fun k => char_in delimiter k = false) (keys items) ->
  In p (map fst (dotted items)) -> In (first_segment p) (keys items).
Proof.
  induction items as [|[k x] items IH]; cbn; [tauto|]. intros Hplain.
  inversion Hplain as [|? ? Hk Hplain']; subst.
  rewrite map_app. intros Hin. apply in_app_or in Hin as [Hin | Hin].
  - left. symmetry. exact (first_segment_item Hk Hin).
  - right. auto.
Qed.

Lemma NoDup_under (key : string) (entries : list (string * node)) :
  NoDup (map fst entries) -> NoDup (map fst (under key entries)).
Proof.
  rewrite under_keys. generalize (map fst entries) as ks.
  induction 1 as [|k ks Hk _ IH]; cbn; constructor; [|exact IH].
  intros Hin. apply in_map_iff in Hin as (k' & Heq & Hin).
  apply append_inj in Heq. injection Heq as ->. tauto.
Qed.

Lemma NoDup_dotted (items : dict) :
  good_keys items ->
  Forall (fun kv => forall key, NoDup (map fst (dotted_item key (snd kv))))
    items ->
  NoDup (map fst (dotted items)).
Proof.
  intros [Hnodup Hplain] Hall.
  induction Hall as [|[k x] items Hx _ IH]; cbn; [constructor|].
  cbn [keys map fst snd] in *. apply NoDup_cons_iff in Hnodup as [Hk Hnodup].
  inversion Hplain as [|? ? Hkplain Hplain']; subst.
  rewrite map_app. apply NoDup_app; [apply Hx | auto |].
  intros p Hp Hp'. apply (first_segment_item Hkplain) in Hp.
  apply (first_segment_items Hplain') in Hp'. rewrite Hp in Hp'. tauto.
Qed.

Lemma NoDup_plain (v : value) :
  plain v = true -> forall key, NoDup (map fst (dotted_item key v)).
Proof.
  revert v.
  apply (@plain_induction (fun v => forall key,
           NoDup (map fst (dotted_item key v)))).
  intros v Hv key. rewrite dotted_items_of.
  destruct (items_of v) as [[t items]|].
  - destruct (Hv _ _ eq_refl) as [Hgood Hall].
    destruct items as [|kx items]; [repeat constructor; intros []|].
    apply NoDup_under, NoDup_dotted; [exact Hgood|].
    eapply Forall_impl; [|exact Hall]. intros kv [_ H]. exact H.
  - repeat constructor. intros [].
Qed.

(** *** The flattener *)

(** On a plain dictionary [dict(FlatterDict(...))] gives the dotted
    attributes, in order. *)
Lemma flatten_plain (items : dict) :
  plain (VDict items) = true -> flatten items = Ok (dotted items).
Proof.
  intros Hplain.
  destruct (@plain_items (VDict items) OfDict items Hplain eq_refl)
    as [Hgood Hall].
  unfold flatten, FlatterDict.
  rewrite (coerce_plain Hplain), stored_items_of. cbn [items_of bind].
  rewrite flat_keys_stored
    by (eapply Forall_impl; [|exact Hall]; intros kv H;
        exact (item_keys_plain H)).
  rewrite read_all; [reflexivity | | reflexivity |].
  - apply NoDup_dotted; [exact Hgood|].
    eapply Forall_impl; [|exact Hall]. intros kv H. exact (NoDup_plain H).
  - apply Forall_forall. intros e He.
    apply in_dotted in He as (k & x & Hin & He).
    destruct Hgood as [Hnodup Hkeys]. rewrite Forall_forall in Hall, Hkeys.
    assert (Hreads : Forall (reads (Nested OfDict (stored_items items)))
                       (dotted_item k x)).
    { apply walk_plain.
      - exact (Hall _ Hin).
      - apply Hkeys. apply (in_map fst) in Hin. exact Hin.
      - apply dict_get_in_nodup.
        + unfold keys, stored_items. rewrite map_map. exact Hnodup.
        + unfold stored_items.
          apply (in_map (fun kv => (fst kv, stored (snd kv)))) in Hin.
          exact Hin. }
    rewrite Forall_forall in Hreads. exact (Hreads _ He).
Qed.



(* ================================================================== *)
(** ** Further properties of the resource-type rewriter *)
(* ================================================================== *)

Lemma keys_dict_set_present {V} (d : list (string * V)) (k : string) (v v0 : V) :
  dict_get k d = Some v0 -> keys (dict_set k v d) = keys d.
Proof.
  induction d as [|[k' v'] d IH]; cbn; [discriminate|].
  destruct (String.eqb_spec k k') as [-> | _]; cbn; [reflexivity|].
  intros H. f_equal. exact (IH H).
Qed.

Lemma dict_get_in_keys {V} (d : list (string * V)) (k : string) (v : V) :
  dict_get k d = Some v -> In k (keys d).
Proof.
  induction d as [|[k' v'] d IH]; cbn; [discriminate|].
  destruct (String.eqb_spec k k') as [-> | _]; auto.
Qed.

(** What [lstrip] returns does not start with a character it strips. *)
Lemma lstrip_head (s chars : string) :
  match lstrip s chars with
  | EmptyString => True
  | String c _ => char_in c chars = false
  end.
Proof.
  induction s as [|c s IH]; cbn; [exact I|].
  destruct (char_in c chars) eqn:E; [exact IH | exact E].
Qed.

(** The ways [replace_resource] returns: the entry as it came, or, for a
    dictionary with a string type and a dictionary of properties, the
    custom resource. *)
Lemma replace_resource_returns
    (prefix : string) (tokens : dict) (resource_def out : value) :
  replace_resource prefix tokens resource_def = Ok out ->
  (is_custom prefix tokens resource_def = Ok false /\ out = resource_def) \/
  exists fields ty token properties,
    resource_def = VDict fields /\
    dict_get "Type" fields = Some (VStr ty) /\
    startswith ty prefix = true /\
    dict_get (lstrip ty prefix) tokens = Some token /\
    dict_get "Properties" fields = Some (VDict properties) /\
    out = VDict (dict_set "Properties"
                   (VDict (dict_update [("ServiceToken", token)] properties))
                   (dict_set "Type" (VStr CUSTOM_RESOURCE) fields)).
Proof.
  unfold replace_resource. intros H.
  apply bind_ok in H as ([|] & Hcustom & H);
    [|left; split; [exact Hcustom | congruence]].
  right. unfold custom_resource in H.
  apply bind_ok in H as (fields & Hfields & H).
  destruct resource_def; try discriminate Hfields.
  cbn in Hfields. injection Hfields as ->.
  apply bind_ok in H as (tyv & Hty & H).
  apply bind_ok in H as (suffix & Hsuffix & H).
  destruct tyv as [| | | |ty| | | |]; try discriminate Hsuffix.
  cbn in Hsuffix. injection Hsuffix as <-.
  apply bind_ok in H as (token & Htoken & H).
  apply bind_ok in H as (pv & Hpv & H).
  apply bind_ok in H as (properties & Hprops & [= <-]).
  destruct pv; try discriminate Hprops. cbn in Hprops. injection Hprops as ->.
  unfold getitem in Hty, Htoken. cbn in Hpv.
  destruct (dict_get "Type" fields) as [tyv|] eqn:Etype; [|discriminate].
  injection Hty as ->.
  destruct (dict_get (lstrip ty prefix) tokens) as [tok|] eqn:Etoken;
    [|discriminate].
  injection Htoken as ->.
  destruct (dict_get "Properties" fields) as [pv|] eqn:Eprops;
    [|discriminate].
  injection Hpv as ->.
  unfold is_custom, contains, getitem, dict_mem in Hcustom.
  rewrite Etype in Hcustom. cbn in Hcustom.
  destruct (startswith ty prefix) eqn:Estart; [|discriminate].
  exists fields, ty, token, properties.
  repeat split; first [assumption | reflexivity].
Qed.

Lemma replace_fragment_resources_keys
    (prefix : string) (tokens resources resources' : dict) :
  replace_fragment_resources prefix tokens resources = Ok resources' ->
  keys resources' = keys resources.
Proof.
  revert resources'.
  induction resources as [|[resource_id resource_def] resources IH];
    cbn; intros resources'.
  - intros [= <-]. reflexivity.
  - intros H. apply bind_ok in H as (def' & _ & H).
    apply bind_ok in H as (rest & Hrest & [= <-]).
    cbn. f_equal. exact (IH _ Hrest).
Qed.

(** The rewriter keeps the resource ids, in their order, and so their
    number. *)
Theorem rewrite_keeps_resource_ids
    (prefix : string) (tokens resources resources' : dict) :
  replace_fragment_resources prefix tokens resources = Ok resources' ->
  keys resources' = keys resources /\
  List.length resources' = List.length resources.
Proof.
  intros H. pose proof (replace_fragment_resources_keys H) as Hkeys.
  split; [exact Hkeys|].
  rewrite <- (length_map fst resources'), <- (length_map fst resources).
  unfold keys in Hkeys. rewrite Hkeys. reflexivity.
Qed.

Lemma rewrite_keeps_resource_ids_witness :
  let resources :=
    [("MyCustom::TypeA",
      VDict [("Type", VStr "MyCustom::TypeA"); ("Properties", VDict [])]);
     ("Bucket", VDict [("Type", VStr "AWS::S3::Bucket")])] in
  let resources' :=
    [("MyCustom::TypeA",
      VDict [("Type", VStr "AWS::CloudFormation::CustomResource");
             ("Properties", VDict [("ServiceToken", VStr "arn")])]);
     ("Bucket", VDict [("Type", VStr "AWS::S3::Bucket")])] in
  keys resources' = keys resources /\
  List.length resources' = List.length resources.
Proof.
  intros resources resources'.
  apply (@rewrite_keeps_resource_ids "MyCustom::" [("TypeA", VStr "arn")]
           resources resources').
  reflexivity.
Defined.

(** An entry that is a dictionary comes back as a dictionary with the same
    fields in the same order; only [Type] and [Properties] may change. *)
Theorem rewrite_keeps_other_fields
    (prefix : string) (tokens fields : dict) (out : value) :
  replace_resource prefix tokens (VDict fields) = Ok out ->
  exists fields',
    out = VDict fields' /\
    keys fields' = keys fields /\
    forall k, k <> "Type" -> k <> "Properties" ->
              dict_get k fields' = dict_get k fields.
Proof.
  intros H. apply replace_resource_returns in H
    as [[_ ->] | (fields0 & ty & token & properties & [= <-] & Hty & _ & _ &
                  Hprops & ->)].
  - exists fields. repeat split.
  - eexists. split; [reflexivity|]. split.
    + rewrite (@keys_dict_set_present _ _ "Properties" _ (VDict properties)).
      * exact (keys_dict_set_present _ Hty).
      * rewrite dict_get_set_other by discriminate. exact Hprops.
    + intros k Hk Hk'. rewrite !dict_get_set_other by assumption. reflexivity.
Qed.

Lemma rewrite_keeps_other_fields_witness :
  exists fields',
    VDict [("DependsOn", VStr "Role");
           ("Type", VStr "AWS::CloudFormation::CustomResource");
           ("Condition", VStr "IsProd");
           ("Properties", VDict [("ServiceToken", VStr "arn"); ("P", VInt 1)])]
    = VDict fields' /\
    keys fields' = ["DependsOn"; "Type"; "Condition"; "Properties"] /\
    forall k, k <> "Type" -> k <> "Properties" ->
              dict_get k fields' =
              dict_get k [("DependsOn", VStr "Role");
                          ("Type", VStr "MyCustom::TypeA");
                          ("Condition", VStr "IsProd");
                          ("Properties", VDict [("P", VInt 1)])].
Proof.
  apply (@rewrite_keeps_other_fields "MyCustom::" [("TypeA", VStr "arn")]
           [("DependsOn", VStr "Role"); ("Type", VStr "MyCustom::TypeA");
            ("Condition", VStr "IsProd");
            ("Properties", VDict [("P", VInt 1)])]).
  reflexivity.
Defined.

Lemma replace_resource_stable
    (prefix : string) (tokens : dict) (resource_def out : value) :
  startswith CUSTOM_RESOURCE prefix = false ->
  replace_resource prefix tokens resource_def = Ok out ->
  replace_resource prefix tokens out = Ok out.
Proof.
  intros Hprefix H. pose proof H as Hout.
  apply replace_resource_returns in H
    as [[Hcustom ->] | (fields & ty & token & properties & -> & _ & _ & _ &
                        _ & ->)].
  - exact Hout.
  - unfold replace_resource, is_custom, contains, getitem, dict_mem.
    rewrite dict_get_set_other by discriminate.
    rewrite dict_get_set_same. cbn [bind negb py_startswith].
    rewrite Hprefix. reflexivity.
Qed.

(** Rewriting twice is rewriting once, as long as the type of a custom
    resource does not itself start with the prefix. *)
Theorem rewrite_idempotent
    (prefix : string) (tokens resources resources' : dict) :
  startswith CUSTOM_RESOURCE prefix = false ->
  replace_fragment_resources prefix tokens resources = Ok resources' ->
  replace_fragment_resources prefix tokens resources' = Ok resources'.
Proof.
  intros Hprefix. revert resources'.
  induction resources as [|[resource_id resource_def] resources IH];
    cbn; intros resources'.
  - intros [= <-]. reflexivity.
  - intros H. apply bind_ok in H as (def' & Hdef & H).
    apply bind_ok in H as (rest & Hrest & [= <-]).
    cbn. rewrite (replace_resource_stable Hprefix Hdef). cbn.
    rewrite (IH _ Hrest). reflexivity.
Qed.

Lemma rewrite_idempotent_witness :
  let rewritten :=
    [("Function",
      VDict [("Type", VStr "AWS::CloudFormation::CustomResource");
             ("Properties", VDict [("ServiceToken", VStr "arn"); ("P", VInt 1)])]);
     ("Bucket", VDict [("Type", VStr "AWS::S3::Bucket")])] in
  replace_fragment_resources "MyCustom::" [("TypeA", VStr "arn")] rewritten
  = Ok rewritten.
Proof.
  apply (@rewrite_idempotent "MyCustom::" [("TypeA", VStr "arn")]
           [("Function",
             VDict [("Type", VStr "MyCustom::TypeA");
                    ("Properties", VDict [("P", VInt 1)])]);
            ("Bucket", VDict [("Type", VStr "AWS::S3::Bucket")])]);
    reflexivity.
Defined.

Lemma replace_fragment_resources_unchanged
    (prefix : string) (tokens resources resources' : dict) :
  (forall resource_def out,
      replace_resource prefix tokens resource_def = Ok out ->
      out = resource_def) ->
  replace_fragment_resources prefix tokens resources = Ok resources' ->
  resources' = resources.
Proof.
  intros Hsame. revert resources'.
  induction resources as [|[resource_id resource_def] resources IH];
    cbn; intros resources'.
  - intros [= <-]. reflexivity.
  - intros H. apply bind_ok in H as (def' & Hdef & H).
    apply bind_ok in H as (rest & Hrest & [= <-]).
    rewrite (Hsame _ _ Hdef), (IH _ Hrest). reflexivity.
Qed.

(** A token filed under a name that starts with a character of the prefix
    is never used: when every name of the token map is such a name, the
    rewriter changes nothing. *)
Theorem tokens_behind_prefix_characters_are_dead
    (prefix : string) (tokens resources resources' : dict) :
  (forall name, In name (keys tokens) ->
                exists c rest, name = String c rest /\ char_in c prefix = true) ->
  replace_fragment_resources prefix tokens resources = Ok resources' ->
  resources' = resources.
Proof.
  intros Hnames. apply replace_fragment_resources_unchanged.
  intros resource_def out H.
  apply replace_resource_returns in H
    as [[_ ->] | (fields & ty & token & properties & _ & _ & _ & Htoken & _)];
    [reflexivity|].
  exfalso. apply dict_get_in_keys in Htoken.
  destruct (Hnames _ Htoken) as (c & rest & Hname & Hc).
  pose proof (lstrip_head ty prefix) as Hhead. rewrite Hname in Hhead.
  congruence.
Qed.

Lemma tokens_behind_prefix_characters_are_dead_witness :
  let resources :=
    [("Pet", VDict [("Type", VStr "MyCustom::Mouse"); ("Properties", VDict [])]);
     ("Other", VDict [("Type", VStr "MyCustom::Cat"); ("Properties", VDict [])])] in
  resources = resources.
Proof.
  intros resources.
  apply (@tokens_behind_prefix_characters_are_dead "MyCustom::"
           [("Mouse", VStr "arn:mouse"); ("Cat", VStr "arn:cat")]
           resources resources); [|reflexivity].
  intros name [<- | [<- | []]]; eexists _, _; split; reflexivity.
Defined.

(** An entry whose [Type] is not a string makes the whole rewrite fail,
    whatever the other entries are. *)
Theorem non_string_type_fails
    (prefix : string) (tokens resources fields : dict)
    (resource_id : string) (ty : value) :
  In (resource_id, VDict fields) resources ->
  dict_get "Type" fields = Some ty ->
  (forall s, ty <> VStr s) ->
  exists err, replace_fragment_resources prefix tokens resources = Raise err.
Proof.
  intros Hin Hty Hstr.
  induction resources as [|[id' def'] resources IH]; [destruct Hin|].
  cbn [replace_fragment_resources].
  destruct (replace_resource prefix tokens def') as [out|err] eqn:Hdef;
    [|eexists; reflexivity].
  destruct Hin as [[= -> ->] | Hin].
  - exfalso. unfold replace_resource, is_custom, contains, getitem, dict_mem in Hdef.
    rewrite Hty in Hdef. cbn in Hdef.
    destruct ty; try discriminate Hdef. exact (Hstr s eq_refl).
  - destruct (IH Hin) as [err Herr]. cbn. rewrite Herr. eexists; reflexivity.
Qed.

Lemma non_string_type_fails_witness :
  exists err,
    replace_fragment_resources "MyCustom::" [("TypeA", VStr "arn")]
      [("Bucket", VDict [("Type", VStr "AWS::S3::Bucket")]);
       ("Odd", VDict [("Type", VDict [("Ref", VStr "Kind")])])]
    = Raise err.
Proof.
  apply (@non_string_type_fails "MyCustom::" [("TypeA", VStr "arn")] _
           [("Type", VDict [("Ref", VStr "Kind")])] "Odd"
           (VDict [("Ref", VStr "Kind")])).
  - right. left. reflexivity.
  - reflexivity.
  - intros s. discriminate.
Defined.

(** *** The macro handler *)

(** For an event that has its [requestId] and its [fragment] the handler
    always answers, under the same request id: with a success, or with a
    failure that carries the fragment as it came and the text of the
    error. *)
Theorem lambda_handler_answers
    (prefix : string) (tokens : dict) (describe : exn -> string)
    (event requestId fragment : value) :
  getitem event "requestId" = Ok requestId ->
  getitem event "fragment" = Ok fragment ->
  exists response,
    lambda_handler prefix tokens describe event = Ok (VDict response) /\
    dict_get "requestId" response = Some requestId /\
    ((dict_get "status" response = Some (VStr "success") /\
      transformed prefix tokens event = Ok (VDict response)) \/
     (exists err,
        transformed prefix tokens event = Raise err /\
        response = [("requestId", requestId); ("status", VStr "failure");
                    ("fragment", fragment);
                    ("errorMessage", VStr (describe err))])).
Proof.
  intros Hid Hfragment. unfold lambda_handler.
  destruct (transformed prefix tokens event) as [response|err] eqn:H.
  - unfold transformed in H. rewrite Hid, Hfragment in H. cbn [bind] in H.
    repeat (apply bind_ok in H as (? & _ & H)). injection H as <-.
    eexists. split; [reflexivity|]. split; [reflexivity|].
    left. split; reflexivity.
  - unfold failed. rewrite Hid, Hfragment. cbn [bind].
    eexists. split; [reflexivity|]. split; [reflexivity|].
    right. exists err. split; reflexivity.
Qed.

Lemma lambda_handler_answers_witness :
  exists response,
    lambda_handler "MyCustom::" [("TypeA", VStr "arn")]
      (fun _ => "'Resources'")
      (VDict [("requestId", VStr "r-1");
              ("fragment", VDict [("Description", VStr "d")])])
    = Ok (VDict response) /\
    dict_get "requestId" response = Some (VStr "r-1") /\
    ((dict_get "status" response = Some (VStr "success") /\
      transformed "MyCustom::" [("TypeA", VStr "arn")]
        (VDict [("requestId", VStr "r-1");
                ("fragment", VDict [("Description", VStr "d")])])
      = Ok (VDict response)) \/
     (exists err,
        transformed "MyCustom::" [("TypeA", VStr "arn")]
          (VDict [("requestId", VStr "r-1");
                  ("fragment", VDict [("Description", VStr "d")])])
        = Raise err /\
        response = [("requestId", VStr "r-1"); ("status", VStr "failure");
                    ("fragment", VDict [("Description", VStr "d")]);
                    ("errorMessage", VStr "'Resources'")])).
Proof.
  apply (@lambda_handler_answers "MyCustom::" [("TypeA", VStr "arn")]
           (fun _ => "'Resources'")); reflexivity.
Defined.

(** A successful transform returns the fragment with its sections in the
    order they came, all but [Resources] untouched, and [Resources] with
    the resource ids it had. *)
Theorem lambda_handler_keeps_the_fragment
    (prefix : string) (tokens : dict) (describe : exn -> string)
    (event : value) (response fields : dict) :
  lambda_handler prefix tokens describe event = Ok (VDict response) ->
  dict_get "status" response = Some (VStr "success") ->
  getitem event "fragment" = Ok (VDict fields) ->
  exists fields' resources resources',
    dict_get "fragment" response = Some (VDict fields') /\
    keys fields' = keys fields /\
    (forall k, k <> "Resources" -> dict_get k fields' = dict_get k fields) /\
    dict_get "Resources" fields = Some (VDict resources) /\
    dict_get "Resources" fields' = Some (VDict resources') /\
    keys resources' = keys resources.
Proof.
  unfold lambda_handler. intros H Hstatus Hfragment.
  destruct (transformed prefix tokens event) as [out|err] eqn:Hout.
  - injection H as ->. unfold transformed in Hout.
    apply bind_ok in Hout as (requestId & _ & Hout).
    rewrite Hfragment in Hout. cbn [bind unpack] in Hout.
    apply bind_ok in Hout as (rv & Hrv & Hout).
    apply bind_ok in Hout as (resources & Hitems & Hout).
    apply bind_ok in Hout as (resources' & Hrewrite & [= <-]).
    destruct rv; try discriminate Hitems. cbn in Hitems.
    injection Hitems as ->. unfold getitem in Hrv.
    destruct (dict_get "Resources" fields) as [rv|] eqn:Hresources;
      [|discriminate].
    injection Hrv as ->.
    exists (dict_set "Resources" (VDict resources') fields), resources, resources'.
    repeat split.
    + exact (keys_dict_set_present _ Hresources).
    + intros k Hk. apply dict_get_set_other. exact Hk.
    + apply dict_get_set_same.
    + exact (replace_fragment_resources_keys Hrewrite).
  - unfold failed in H.
    apply bind_ok in H as (requestId & _ & H).
    apply bind_ok in H as (fragment & _ & [= <-]).
    discriminate Hstatus.
Qed.

Lemma lambda_handler_keeps_the_fragment_witness :
  let fields :=
    [("Resources",
      VDict [("F", VDict [("Type", VStr "MyCustom::TypeA");
                          ("Properties", VDict [])])]);
     ("Outputs", VDict [])] in
  let response :=
    [("requestId", VStr "r-1"); ("status", VStr "success");
     ("fragment",
      VDict [("Resources",
              VDict [("F", VDict [("Type", VStr "AWS::CloudFormation::CustomResource");
                                  ("Properties",
                                   VDict [("ServiceToken", VStr "arn")])])]);
             ("Outputs", VDict [])])] in
  exists fields' resources resources',
    dict_get "fragment" response = Some (VDict fields') /\
    keys fields' = keys fields /\
    (forall k, k <> "Resources" -> dict_get k fields' = dict_get k fields) /\
    dict_get "Resources" fields = Some (VDict resources) /\
    dict_get "Resources" fields' = Some (VDict resources') /\
    keys resources' = keys resources.
Proof.
  intros fields response.
  apply (@lambda_handler_keeps_the_fragment "MyCustom::"
           [("TypeA", VStr "arn")] (fun _ => "")
           (VDict [("requestId", VStr "r-1"); ("fragment", VDict fields)])
           response fields);
    reflexivity.
Defined.

(* ================================================================== *)
(** ** Further properties of the action bridge *)
(* ================================================================== *)

(** Case analysis along the handler: takes the next test the handler makes
    and splits on its outcome. *)
Ltac handler_step :=
  match goal with
  | |- context [match ?x with _ => _ end] =>
      lazymatch x with
      | context [match _ with _ => _ end] => fail
      | _ => destruct x eqn:?
      end
  | |- context [if ?x then _ else _] =>
      lazymatch x with
      | context [match _ with _ => _ end] => fail
      | context [if _ then _ else _] => fail
      | _ => destruct x eqn:?
      end
  end;
  cbn [fst snd Data calls bind kwargs].

Ltac handler_cases :=
  unfold handle_custom_resource_request, mbind, lift, ret, raise, invoke,
    set_Data, set_Data_item;
  repeat handler_step.

(** The handler makes at most one remote call. *)
Theorem at_most_one_call (w : env) (ev : event) (st : state) :
  let st' := snd (handle_custom_resource_request w ev st) in
  calls st' = calls st \/ exists call, calls st' = calls st ++ [call].
Proof.
  handler_cases; cbn; eauto.
Qed.

(** Without a hook nothing is called and nothing is written: a request
    that is not an [Update] succeeds with no identity, an [Update] with
    the identity the transport helper generates. *)
Theorem no_hook_policy (w : env) (ev : event) (st : state) :
  dict_mem (RequestType ev) (ResourceProperties ev) = false ->
  (RequestType ev <> "Update" ->
   handle_custom_resource_request w ev st = (Ok None, st)) /\
  (RequestType ev = "Update" ->
   dict_mem "Create" (ResourceProperties ev) = false ->
   handle_custom_resource_request w ev st
   = (Ok (Some (generate_physical_id w ev)), st)).
Proof.
  intros Hmem. unfold handle_custom_resource_request, request_type.
  rewrite Hmem. split.
  - intros Hne. apply String.eqb_neq in Hne. rewrite Hne. reflexivity.
  - intros Hupdate Hcreate. rewrite Hupdate in *. rewrite Hcreate. reflexivity.
Qed.

Lemma no_hook_policy_witness :
  handle_custom_resource_request Scenario.world
    (Scenario.request "Delete" [("Create", Scenario.hook [])]) Scenario.fresh
  = (Ok None, Scenario.fresh).
Proof.
  apply (proj1 (@no_hook_policy Scenario.world
                  (Scenario.request "Delete" [("Create", Scenario.hook [])])
                  Scenario.fresh eq_refl)).
  discriminate.
Defined.

(** An [Update] of a resource with a [Create] hook and no [Update] hook is
    handled exactly as the [Create] of that resource. *)
Theorem update_runs_as_create (w : env) (update create : event) (st : state) :
  RequestType update = "Update" ->
  RequestType create = "Create" ->
  ResourceProperties create = ResourceProperties update ->
  dict_mem "Update" (ResourceProperties update) = false ->
  dict_mem "Create" (ResourceProperties update) = true ->
  handle_custom_resource_request w update st
  = handle_custom_resource_request w create st.
Proof.
  intros Hupdate Hcreate Hprops Hno Hyes.
  unfold handle_custom_resource_request, request_type.
  rewrite Hupdate, Hcreate, Hprops, Hno, Hyes. reflexivity.
Qed.

Lemma update_runs_as_create_witness :
  handle_custom_resource_request Scenario.world
    (Scenario.request "Update"
       [("Create", Scenario.hook [("PhysicalResourceId", VStr "Location")])])
    Scenario.fresh
  = handle_custom_resource_request Scenario.world
      (Scenario.request "Create"
         [("Create", Scenario.hook [("PhysicalResourceId", VStr "Location")])])
      Scenario.fresh.
Proof.
  apply update_runs_as_create; reflexivity.
Defined.

(** A method the client does not have, or a name that is no method, is
    refused before anything is called or written. *)
Theorem unknown_method_is_refused
    (w : env) (ev : event) (st : state) (rt service name : string)
    (hook : dict) (cl : client) :
  request_type ev = Some rt ->
  dict_get rt (ResourceProperties ev) = Some (VDict hook) ->
  dict_get "Client" hook = Some (VStr service) ->
  dict_get "Method" hook = Some (VStr name) ->
  boto3_client w service = Ok cl ->
  (forall call, cl name <> Method call) ->
  handle_custom_resource_request w ev st
  = (Raise (Raised ValueError (no_method_message service name)), st).
Proof.
  intros Hrt Hhook Hclient Hmethod Hboto Hattr.
  unfold handle_custom_resource_request. rewrite Hrt.
  unfold mbind, lift, getitem, get. rewrite Hhook, Hclient, Hmethod, Hboto.
  destruct (cl name) as [| |call] eqn:E; try reflexivity.
  exfalso. exact (Hattr call eq_refl).
Qed.

Lemma unknown_method_is_refused_witness :
  handle_custom_resource_request Scenario.world
    (Scenario.request "Create"
       [("Create", VDict [("Client", VStr "s3"); ("Method", VStr "meta")])])
    Scenario.fresh
  = (Raise (Raised ValueError "Boto client method 's3.meta' does not exist."),
     Scenario.fresh).
Proof.
  apply (@unknown_method_is_refused Scenario.world _ Scenario.fresh "Create"
           "s3" "meta" [("Client", VStr "s3"); ("Method", VStr "meta")]
           Scenario.s3); try reflexivity.
  intros call. discriminate.
Defined.

(** What the remote call raises, the handler raises: the call has been
    made, the attributes are not written. *)
Theorem remote_rejection_propagates
    (w : env) (ev : event) (st : state) (rt service name : string)
    (hook : dict) (cl : client) (call : dict -> result value)
    (parameters : value) (args : dict) (err : exn) :
  request_type ev = Some rt ->
  dict_get rt (ResourceProperties ev) = Some (VDict hook) ->
  dict_get "Client" hook = Some (VStr service) ->
  dict_get "Method" hook = Some (VStr name) ->
  boto3_client w service = Ok cl ->
  cl name = Method call ->
  get (VDict hook) "Parameters" (VDict []) = Ok parameters ->
  handle_param_typing parameters = Ok (VDict args) ->
  call args = Raise err ->
  handle_custom_resource_request w ev st
  = (Raise err,
     {| Data := Data st; calls := calls st ++ [(service, name, args)] |}).
Proof.
  intros Hrt Hhook Hclient Hmethod Hboto Hattr Hparams Htyped Hcall.
  unfold handle_custom_resource_request. rewrite Hrt.
  unfold mbind, lift, getitem. rewrite Hhook, Hclient, Hmethod, Hparams, Hboto.
  rewrite Hattr. unfold mbind, lift. rewrite Htyped. cbn [kwargs].
  unfold invoke. rewrite Hcall. reflexivity.
Qed.

Lemma remote_rejection_propagates_witness :
  handle_custom_resource_request Scenario.world
    (Scenario.request "Create"
       [("Create", VDict [("Client", VStr "s3");
                          ("Method", VStr "create_bucket")])])
    Scenario.fresh
  = (Raise (Builtin LibraryError),
     {| Data := []; calls := [("s3", "create_bucket", [])] |}).
Proof.
  apply (@remote_rejection_propagates Scenario.world _ Scenario.fresh "Create"
           "s3" "create_bucket"
           [("Client", VStr "s3"); ("Method", VStr "create_bucket")]
           Scenario.s3 Scenario.create_bucket (VDict []) []);
    reflexivity.
Defined.

(** The outcome of a request, read off the handler's result and final
    state: an identity returned by a hook is the [Ref] attribute, and only
    a [Create] or an [Update] hook returns one. *)
Lemma hook_identity (w : env) (ev : event) (st : state) (rt : string) :
  request_type ev = Some rt ->
  match handle_custom_resource_request w ev st with
  | (Ok (Some ref), st') =>
      dict_get "Ref" (Data st') = Some (Scalar (VStr ref)) /\
      (rt = "Create" \/ rt = "Update")
  | _ => True
  end.
Proof.
  intros Hrt. unfold handle_custom_resource_request. rewrite Hrt. clear Hrt.
  unfold mbind, lift, ret, raise, invoke, set_Data, set_Data_item.
  repeat handler_step; try exact I; try discriminate.
  all: cbn [Data]; split; [apply dict_get_set_same|].
  all: match goal with
       | H : existsb _ _ = true |- _ =>
           cbn in H; rewrite orb_false_r in H; apply orb_prop in H as [H | H];
           apply String.eqb_eq in H; auto
       end.
Qed.

(** The identity a hook returns is stored as the [Ref] attribute. *)
Theorem identity_is_the_Ref_attribute
    (w : env) (ev : event) (st st' : state) (rt ref : string) :
  request_type ev = Some rt ->
  handle_custom_resource_request w ev st = (Ok (Some ref), st') ->
  dict_get "Ref" (Data st') = Some (Scalar (VStr ref)).
Proof.
  intros Hrt H. pose proof (@hook_identity w ev st rt Hrt) as Hid.
  rewrite H in Hid. exact (proj1 Hid).
Qed.

Lemma identity_is_the_Ref_attribute_witness :
  dict_get "Ref" [("Location", Scalar (VStr "/x")); ("Ref", Scalar (VStr "/x"))]
  = Some (Scalar (VStr "/x")).
Proof.
  apply (@identity_is_the_Ref_attribute Scenario.world
           (Scenario.request "Create"
              [("Create", Scenario.hook [("PhysicalResourceId", VStr "Location")])])
           Scenario.fresh
           {| Data := [("Location", Scalar (VStr "/x")); ("Ref", Scalar (VStr "/x"))];
              calls := [("s3", "create_bucket", [("Bucket", VStr "x")])] |}
           "Create" "/x"); reflexivity.
Defined.

(** A hook that is neither the [Create] nor the [Update] hook never gives
    an identity, whatever path its properties name: the handler returns
    [None] or raises. *)
Theorem other_hooks_give_no_identity
    (w : env) (ev : event) (st st' : state) (rt : string)
    (outcome : result (option string)) :
  request_type ev = Some rt ->
  rt <> "Create" -> rt <> "Update" ->
  handle_custom_resource_request w ev st = (outcome, st') ->
  outcome = Ok None \/ exists err, outcome = Raise err.
Proof.
  intros Hrt Hcreate Hupdate H.
  pose proof (@hook_identity w ev st rt Hrt) as Hid.
  rewrite H in Hid. destruct outcome as [[ref|]|err]; eauto.
  destruct Hid as [_ [-> | ->]]; congruence.
Qed.

Lemma other_hooks_give_no_identity_witness :
  (Ok None : result (option string)) = Ok None \/
  exists err, (Ok None : result (option string)) = Raise err.
Proof.
  apply (@other_hooks_give_no_identity Scenario.world
           (Scenario.request "Delete"
              [("Delete", Scenario.hook [("PhysicalResourceId", VStr "Location")])])
           Scenario.fresh
           {| Data := [("Location", Scalar (VStr "/x"))];
              calls := [("s3", "create_bucket", [("Bucket", VStr "x")])] |}
           "Delete" (Ok None));
    first [reflexivity | discriminate].
Defined.

(** A hook whose path query gives something returns it as the identity,
    as it is when it is a string and through [json.dumps] otherwise, and
    writes it over the [Ref] attribute. *)
Theorem identity_from_the_path
    (w : env) (ev : event) (st : state) (rt service name ref : string)
    (hook : dict) (cl : client) (call : dict -> result value)
    (parameters expression boto_res physical_id : value) (args : dict)
    (data : list (string * node)) :
  request_type ev = Some rt ->
  rt = "Create" \/ rt = "Update" ->
  dict_get rt (ResourceProperties ev) = Some (VDict hook) ->
  dict_get "Client" hook = Some (VStr service) ->
  dict_get "Method" hook = Some (VStr name) ->
  boto3_client w service = Ok cl ->
  cl name = Method call ->
  get (VDict hook) "Parameters" (VDict []) = Ok parameters ->
  handle_param_typing parameters = Ok (VDict args) ->
  call args = Ok boto_res ->
  response_data boto_res = Ok data ->
  dict_get "PhysicalResourceId" hook = Some expression ->
  truthy expression = true ->
  search w expression boto_res = Ok physical_id ->
  truthy physical_id = true ->
  match physical_id with
  | VStr s => Ok s
  | _ => json_dumps w physical_id
  end = Ok ref ->
  handle_custom_resource_request w ev st =
    (Ok (Some ref),
     {| Data := dict_set "Ref" (Scalar (VStr ref)) data;
        calls := calls st ++ [(service, name, args)] |}).
Proof.
  intros Hrt Hkind Hhook Hclient Hmethod Hboto Hattr Hparams Htyped Hcall
    Hdata Hexpr Htruthy Hsearch Hpresent Href.
  unfold handle_custom_resource_request. rewrite Hrt.
  unfold mbind, lift, getitem. rewrite Hhook, Hclient, Hmethod, Hparams, Hboto.
  rewrite Hattr. unfold mbind, lift. rewrite Htyped. cbn [kwargs].
  unfold invoke. rewrite Hcall, Hdata. cbn [set_Data].
  assert (Hin : existsb (String.eqb rt) ["Create"; "Update"] = true)
    by (destruct Hkind as [-> | ->]; reflexivity).
  rewrite Hin. unfold mbind, lift, get.
  rewrite Hexpr, Htruthy, Hsearch, Hpresent. cbn [negb]. rewrite Href.
  reflexivity.
Qed.

Lemma identity_from_the_path_witness :
  handle_custom_resource_request Scenario.world
    (Scenario.request "Update"
       [("Update", Scenario.hook [("PhysicalResourceId", VStr "Location")])])
    Scenario.fresh
  = (Ok (Some "/x"),
     {| Data := [("Location", Scalar (VStr "/x")); ("Ref", Scalar (VStr "/x"))];
        calls := [("s3", "create_bucket", [("Bucket", VStr "x")])] |}).
Proof.
  apply (@identity_from_the_path Scenario.world _ Scenario.fresh "Update"
           "s3" "create_bucket" "/x"
           [("Client", VStr "s3"); ("Method", VStr "create_bucket");
            ("Parameters", VDict [("Bucket", VStr "x")]);
            ("PhysicalResourceId", VStr "Location")]
           Scenario.s3 Scenario.create_bucket
           (VDict [("Bucket", VStr "x")]) (VStr "Location")
           (VDict [("Location", VStr "/x")]) (VStr "/x")
           [("Bucket", VStr "x")] [("Location", Scalar (VStr "/x"))]);
    first [reflexivity | right; reflexivity].
Defined.

(** A hook without a path, or with an empty one, returns no identity: the
    attributes are those of the response. *)
Theorem hook_without_path
    (w : env) (ev : event) (st : state) (rt service name : string)
    (hook : dict) (cl : client) (call : dict -> result value)
    (parameters expression boto_res : value) (args : dict)
    (data : list (string * node)) :
  request_type ev = Some rt ->
  dict_get rt (ResourceProperties ev) = Some (VDict hook) ->
  dict_get "Client" hook = Some (VStr service) ->
  dict_get "Method" hook = Some (VStr name) ->
  boto3_client w service = Ok cl ->
  cl name = Method call ->
  get (VDict hook) "Parameters" (VDict []) = Ok parameters ->
  handle_param_typing parameters = Ok (VDict args) ->
  call args = Ok boto_res ->
  response_data boto_res = Ok data ->
  get (VDict hook) "PhysicalResourceId" VNone = Ok expression ->
  truthy expression = false ->
  handle_custom_resource_request w ev st =
    (Ok None,
     {| Data := data; calls := calls st ++ [(service, name, args)] |}).
Proof.
  intros Hrt Hhook Hclient Hmethod Hboto Hattr Hparams Htyped Hcall
    Hdata Hexpr Hfalsy.
  unfold handle_custom_resource_request. rewrite Hrt.
  unfold mbind, lift, getitem. rewrite Hhook, Hclient, Hmethod, Hparams, Hboto.
  rewrite Hattr. unfold mbind, lift. rewrite Htyped. cbn [kwargs].
  unfold invoke. rewrite Hcall, Hdata. cbn [set_Data].
  destruct (existsb (String.eqb rt) ["Create"; "Update"]); [|reflexivity].
  unfold mbind, lift. rewrite Hexpr, Hfalsy. reflexivity.
Qed.

Lemma hook_without_path_witness :
  handle_custom_resource_request Scenario.world
    (Scenario.request "Create"
       [("Create", Scenario.hook [("PhysicalResourceId", VStr "")])])
    Scenario.fresh
  = (Ok None,
     {| Data := [("Location", Scalar (VStr "/x"))];
        calls := [("s3", "create_bucket", [("Bucket", VStr "x")])] |}).
Proof.
  apply (@hook_without_path Scenario.world _ Scenario.fresh "Create"
           "s3" "create_bucket"
           [("Client", VStr "s3"); ("Method", VStr "create_bucket");
            ("Parameters", VDict [("Bucket", VStr "x")]);
            ("PhysicalResourceId", VStr "")]
           Scenario.s3 Scenario.create_bucket
           (VDict [("Bucket", VStr "x")]) (VStr "")
           (VDict [("Location", VStr "/x")])
           [("Bucket", VStr "x")] [("Location", Scalar (VStr "/x"))]);
    reflexivity.
Defined.

(** *** Parameter typing *)

Lemma typed_list_length (xs ys : list value) :
  typed_list xs = Ok ys -> List.length ys = List.length xs.
Proof.
  revert ys. induction xs as [|x xs IH]; cbn; intros ys.
  - intros [= <-]. reflexivity.
  - intros H. apply bind_ok in H as (x' & _ & H).
    apply bind_ok in H as (rest & Hrest & [= <-]).
    cbn. f_equal. exact (IH _ Hrest).
Qed.

(** Typing keeps the shape of what is no envelope: a list keeps its
    length, a dictionary without a type tag keeps its keys in their order,
    a scalar is returned as it is. *)
Theorem typing_keeps_the_shape (parameter typed : value) :
  untagged parameter = true ->
  handle_param_typing parameter = Ok typed ->
  same_shape parameter typed.
Proof.
  destruct parameter; cbn [untagged same_shape]; intros Hany;
    try (intros [= <-]; reflexivity).
  - rewrite handle_param_typing_list. intros H.
    apply bind_ok in H as (ys & Hys & [= <-]).
    exists ys. split; [reflexivity | exact (typed_list_length Hys)].
  - rewrite handle_param_typing_dict. apply negb_true_iff in Hany.
    rewrite Hany. intros H.
    apply bind_ok in H as (items' & Hitems & [= <-]).
    exists items'. split; [reflexivity | exact (typed_items_keys Hitems)].
Qed.

Lemma typing_keeps_the_shape_witness :
  same_shape
    (VDict [("Bucket", VStr "x");
            ("MaxKeys", VDict [("Type::Int", VStr "10")])])
    (VDict [("Bucket", VStr "x"); ("MaxKeys", VInt 10)]).
Proof.
  apply typing_keeps_the_shape; reflexivity.
Defined.

Lemma envelope_tag_any (items : dict) (tag : string) :
  envelope_tag items = Some tag -> any_type_key items = true.
Proof.
  intros Htag. unfold envelope_tag in Htag.
  destruct (find_key_present Htag) as [v Hv].
  assert (Hmem : dict_mem tag items = true)
    by (unfold dict_mem; rewrite Hv; reflexivity).
  unfold any_type_key. cbn.
  destruct (type_tag_cases (proj2 (find_some _ _ Htag))) as [-> | [-> | ->]];
    rewrite Hmem; rewrite ?orb_true_r; reflexivity.
Qed.

(** A dictionary that holds a type tag is read by the first tag among its
    keys and by nothing else: its other keys, other tags included, are
    dropped. *)
Theorem envelope_is_read_by_its_first_tag (items : dict) (tag : string) :
  envelope_tag items = Some tag ->
  exists v,
    dict_get tag items = Some v /\
    handle_param_typing (VDict items) = handle_param_typing (VDict [(tag, v)]).
Proof.
  intros Htag. pose proof (envelope_tag_any Htag) as Hany.
  unfold envelope_tag in Htag.
  destruct (find_key_present Htag) as [v Hv]. exists v. split; [exact Hv|].
  pose proof (proj2 (find_some _ _ Htag)) as Hmapper.
  rewrite !handle_param_typing_dict, Hany.
  assert (Hany' : any_type_key [(tag, v)] = true).
  { apply (@envelope_tag_any _ tag). unfold envelope_tag. cbn.
    rewrite Hmapper. reflexivity. }
  rewrite Hany'. unfold apply_type_mapper. rewrite Htag. cbn [keys map fst find].
  rewrite Hmapper.
  destruct (type_tag_cases Hmapper) as [-> | [-> | ->]];
    cbn; unfold getitem; rewrite Hv; reflexivity.
Qed.

Lemma envelope_is_read_by_its_first_tag_witness :
  exists v,
    dict_get "Type::Bool"
      [("Note", VStr "n"); ("Type::Bool", VStr "TRUE"); ("Type::Int", VStr "7")]
    = Some v /\
    handle_param_typing
      (VDict [("Note", VStr "n"); ("Type::Bool", VStr "TRUE");
              ("Type::Int", VStr "7")])
    = handle_param_typing (VDict [("Type::Bool", v)]).
Proof.
  apply envelope_is_read_by_its_first_tag. reflexivity.
Defined.

(** *** The attributes *)

Lemma under_leaves (key : string) (entries : list (string * node)) :
  Forall (fun e => leaf (snd e) = true) entries ->
  Forall (fun e => leaf (snd e) = true) (under key entries).
Proof.
  unfold under. induction 1; cbn; constructor; auto.
Qed.

Lemma dotted_leaves (items : dict) :
  Forall (fun kv => forall key,
              Forall (fun e => leaf (snd e) = true) (dotted_item key (snd kv)))
    items ->
  Forall (fun e => leaf (snd e) = true) (dotted items).
Proof.
  induction 1 as [|[k x] items Hx _ IH]; cbn; [constructor|].
  apply Forall_app. split; [apply Hx | exact IH].
Qed.

Lemma dotted_item_leaves (v : value) :
  plain v = true ->
  forall key, Forall (fun e => leaf (snd e) = true) (dotted_item key v).
Proof.
  revert v.
  apply (@plain_induction (fun v => forall key,
           Forall (fun e => leaf (snd e) = true) (dotted_item key v))).
  intros v Hv key. rewrite dotted_items_of.
  destruct (items_of v) as [[t items]|] eqn:E.
  - destruct (Hv _ _ eq_refl) as [_ Hall].
    destruct items as [|kx items]; [repeat constructor|].
    apply under_leaves, dotted_leaves.
    eapply Forall_impl; [|exact Hall]. intros kv [_ H]. exact H.
  - repeat constructor. destruct v; try reflexivity; discriminate E.
Qed.

Lemma escape_flat (n : node) : leaf n = true -> flat_value (escape n) = true.
Proof. destruct n as [[]|t inner]; cbn; auto. Qed.

(** The attributes of a plain response are flat: every value is a string,
    a number, a boolean, [None] or an empty container, never a date and
    never a container that holds something. *)
Theorem attributes_are_flat (boto_res : value) (data : list (string * node)) :
  plain (VDict (as_mapping boto_res)) = true ->
  response_data boto_res = Ok data ->
  Forall (fun e => flat_value (snd e) = true) data.
Proof.
  intros Hplain H.
  assert (Hdata : response_data boto_res
                  = Ok (escaped (dotted (as_mapping boto_res)))).
  { change (response_data boto_res) with
      (flat <- flatten (as_mapping boto_res) ;;
       Ok (map (fun kv => (fst kv, escape (snd kv))) flat)).
    rewrite (flatten_plain Hplain). reflexivity. }
  rewrite Hdata in H. injection H as <-.
  destruct (@plain_items _ OfDict _ Hplain eq_refl) as [_ Hall].
  assert (Hleaves : Forall (fun e => leaf (snd e) = true)
                      (dotted (as_mapping boto_res))).
  { apply dotted_leaves. eapply Forall_impl; [|exact Hall].
    intros kv Hkv. exact (dotted_item_leaves Hkv). }
  clear Hdata Hall Hplain.
  unfold escaped. induction Hleaves as [|e es He _ IH]; cbn; constructor.
  - exact (escape_flat He).
  - exact IH.
Qed.

Lemma attributes_are_flat_witness :
  Forall (fun e => flat_value (snd e) = true)
    [("Result.0.Created", Scalar (VStr "2023-04-05T00:00:00"));
     ("Result.0.Tags", Nested OfList []);
     ("Result.1", Scalar VNone)].
Proof.
  apply (@attributes_are_flat
           (VList [VDict [("Created", VDate (Date 2023 4 5));
                          ("Tags", VList [])];
                   VNone]));
    reflexivity.
Defined.

(* ================================================================== *)
(** ** The rewriter and the handler at their edges *)
(* ================================================================== *)

(** The test of the repository, through the general statement. *)
Lemma replace_when_lstrip_exact_witness :
  replace_resource "MyCustom::"
    [("TypeA", VStr "arn:aws:lambda:us-east-1:123456789012:function:my-function-a")]
    (VDict [("Type", VStr "MyCustom::TypeA");
            ("Properties",
             VDict [("Property1", VStr "Value1"); ("Property2", VStr "Value2")])])
  = Ok (VDict
          (dict_set "Properties"
             (VDict [("ServiceToken",
                      VStr "arn:aws:lambda:us-east-1:123456789012:function:my-function-a");
                     ("Property1", VStr "Value1"); ("Property2", VStr "Value2")])
             (dict_set "Type" (VStr CUSTOM_RESOURCE)
                [("Type", VStr "MyCustom::TypeA");
                 ("Properties",
                  VDict [("Property1", VStr "Value1");
                         ("Property2", VStr "Value2")])]))).
Proof.
  apply (@replace_when_lstrip_exact "MyCustom::" _ _ _ "MyCustom::TypeA");
    try reflexivity.
  apply NoDup_cons; [cbn; intros [H | []]; discriminate H|].
  apply NoDup_cons; [intros []|]. apply NoDup_nil.
Defined.

(** An event without its [requestId] is not answered: the lookup fails in
    the [try], and again in the [except]. *)
Theorem lambda_handler_needs_the_request_id
    (prefix : string) (tokens : dict) (describe : exn -> string)
    (event : value) (err : exn) :
  getitem event "requestId" = Raise err ->
  lambda_handler prefix tokens describe event = Raise err.
Proof.
  intros H. unfold lambda_handler, transformed, failed. rewrite H. reflexivity.
Qed.

Lemma lambda_handler_needs_the_request_id_witness :
  lambda_handler "MyCustom::" [] (fun _ => "'requestId'")
    (VDict [("fragment", VDict [("Resources", VDict [])])])
  = Raise (Builtin KeyError).
Proof.
  apply lambda_handler_needs_the_request_id. reflexivity.
Defined.
